(** Shallow embedding of [src/src/services/approval_rules.py]:
    the document classifier [classify_document_type] and the evaluator
    [InvoiceApprovalRules.evaluate], with the decision record
    [ApprovalDecision] and the configuration [ApprovalRulesConfig]. *)

From Stdlib Require Import String Ascii List Bool ZArith Lia Floats Sorted Permutation.
Set Warnings "-inexact-float".
Import ListNotations.
Open Scope string_scope.
Open Scope Z_scope.

(** * Python strings *)

Module PyStr.

(** [str.lower()] on the ASCII range: 'A'..'Z' become 'a'..'z'. *)
Definition lower_char (c : ascii) : ascii :=
  let n := nat_of_ascii c in
  if (Nat.leb 65 n && Nat.leb n 90)%bool then ascii_of_nat (n + 32) else c.

Fixpoint lower (s : string) : string :=
  match s with
  | EmptyString => EmptyString
  | String c s' => String (lower_char c) (lower s')
  end.

(** [needle in hay]: substring test of Python's [in] on [str]. *)
Fixpoint contains (needle hay : string) : bool :=
  if String.prefix needle hay then true
  else match hay with
       | EmptyString => false
       | String _ hay' => contains needle hay'
       end.

(** [sep.join(xs)]. *)
Fixpoint join (sep : string) (xs : list string) : string :=
  match xs with
  | [] => ""
  | [x] => x
  | x :: xs' => x ++ sep ++ join sep xs'
  end.

(** Truthiness of an optional string ([None] and [""] are falsy). *)
Definition truthy (s : option string) : bool :=
  match s with
  | None => false
  | Some EmptyString => false
  | Some _ => true
  end.

End PyStr.

Import PyStr.

(** * classify_document_type *)

Inductive doc_type := receipt | invoice | unknown.

Definition doc_type_eqb (a b : doc_type) : bool :=
  match a, b with
  | receipt, receipt | invoice, invoice | unknown, unknown => true
  | _, _ => false
  end.

Definition add_if (b : bool) (w score : Z) : Z := if b then score + w else score.

(** The weighted score of the lowered text [t], one step per [if] of the
    source, in source order. *)
Definition score (t : string) : Z :=
  let has s := contains s t in
  let score := 0 in
  (* OBLIGATION CUES (+) *)
  let score := add_if (has "amount due" && negb (has "$0.00")) 3 score in
  let score := add_if (has "balance due" && negb (has "$0.00")
                       && negb (has "balance due 0")) 3 score in
  let score := add_if (has "total due" && negb (has "$0.00")) 3 score in
  let score := add_if (has "please remit" || has "please pay"
                       || has "payment required") 3 score in
  let score := add_if (has "due date" || has "payment due") 4 score in
  let score := add_if (has "net 30" || has "net 60" || has "due upon receipt"
                       || has "payment terms") 4 score in
  let score := add_if (has "remit to" || has "remit payment"
                       || has "make payment to") 3 score in
  let score := add_if (has "bank details" || has "bsb" || has "account number"
                       || has "eft details") 3 score in
  let score := add_if (has "wire transfer" || has "bpay"
                       || has "direct deposit") 3 score in
  let score := add_if (has "invoice" && negb (has "receipt")) 2 score in
  let score := add_if (has "invoice number" || has "invoice #"
                       || has "invoice no" || has "invoice id") 2 score in
  (* CONFIRMATION CUES (-) *)
  let score := add_if (has "thank you for your payment"
                       || has "payment received") (-3) score in
  let score := add_if (has "amount paid" || has "paid on"
                       || has "date paid") (-3) score in
  let score := add_if (has "payment history"
                       || has "transaction history") (-3) score in
  let score := add_if (has "your order is complete"
                       || has "we appreciate your business") (-3) score in
  let score := add_if (has "$0.00" || has "balance due 0" || has "balance: $0.00"
                       || has "no payment required") (-4) score in
  let score := add_if (has "balance due: $0.00"
                       || has "amount due: $0.00") (-4) score in
  let score := add_if (has "visa" && (has "****" || has "ending")) (-3) score in
  let score := add_if (has "mastercard" && (has "****" || has "ending")) (-3) score in
  let score := add_if (has "direct debit" || has "auto-recharge"
                       || has "autopay") (-3) score in
  let score := add_if (has "paypal" || has "stripe" || has "square") (-3) score in
  let score := add_if (has "receipt" && negb (has "invoice")) (-2) score in
  let score := add_if (has "receipt number" || has "receipt #"
                       || has "receipt no") (-2) score in
  let score := add_if (has "tax invoice / receipt" || has "tax receipt") (-2) score in
  score.

(** [text] is [None] when the caller passes no text. *)
Definition classify_document_type (text : option string) : doc_type :=
  if negb (truthy text) then unknown
  else
    let t := lower (match text with Some s => s | None => "" end) in
    let score := score t in
    if 2 <? score then invoice
    else if score <? -2 then receipt
    else unknown.

(** * ApprovalRulesConfig, ApprovalDecision, InvoiceApprovalRules.evaluate *)

(** Python [float]s are IEEE binary64 values: Rocq's primitive floats;
    [a <= b] is [PrimFloat.leb a b] (false as soon as one side is NaN). *)

Record ApprovalRulesConfig := {
  amount_threshold : float;
  min_confidence : float;
  require_invoice_keyword : bool;
  reject_receipt_keyword : bool;
  allowed_bill_to_names : list string
}.

Definition default_config : ApprovalRulesConfig := {|
  amount_threshold := 500.0%float;
  min_confidence := 0.85%float;
  require_invoice_keyword := true;
  reject_receipt_keyword := true;
  allowed_bill_to_names := []
|}.

(** The [metadata] dict of a decision: its four keys. *)
Record Metadata := {
  md_amount : float;
  md_confidence : float;
  md_vendor : option string;
  md_config : ApprovalRulesConfig
}.

(** A [Dict[str, bool]] in insertion order. *)
Definition checks_dict := list (string * bool).

Record ApprovalDecision := {
  approved : bool;
  reason : string;
  checks : checks_dict;
  metadata : Metadata
}.

(** [d[k] = v]: overwrite the entry of [k] in place, or append it. *)
Fixpoint dict_set (k : string) (v : bool) (d : checks_dict) : checks_dict :=
  match d with
  | [] => [(k, v)]
  | (k', v') :: d' =>
      if String.eqb k k' then (k, v) :: d' else (k', v') :: dict_set k v d'
  end.

(** [d.get(k)]. *)
Fixpoint dict_get (k : string) (d : checks_dict) : option bool :=
  match d with
  | [] => None
  | (k', v) :: d' => if String.eqb k k' then Some v else dict_get k d'
  end.

Definition unwrap_str (s : option string) : string :=
  match s with Some x => x | None => "" end.

Section Evaluate.

(** The two float formats of the f-strings: [{x:.2f}] and [{x:.1%}]. *)
Variable fmt_2f : float -> string.
Variable fmt_pct1 : float -> string.

Definition evaluate (config : ApprovalRulesConfig) (amount confidence : float)
    (content vendor bill_to : option string) : ApprovalDecision :=
  let checks : checks_dict := [] in
  let reasons : list string := [] in
  (* Check 1: Amount threshold *)
  let amount_ok := PrimFloat.leb amount config.(amount_threshold) in
  let checks := dict_set "amount_within_limit" amount_ok checks in
  let reasons :=
    if negb amount_ok then
      app reasons ["Amount $" ++ fmt_2f amount ++ " exceeds limit of $"
                  ++ fmt_2f config.(amount_threshold)]
    else reasons in
  (* Check 2: Confidence threshold *)
  let confidence_ok := PrimFloat.leb config.(min_confidence) confidence in
  let checks := dict_set "confidence_sufficient" confidence_ok checks in
  let reasons :=
    if negb confidence_ok then
      app reasons ["Confidence " ++ fmt_pct1 confidence ++ " below minimum "
                  ++ fmt_pct1 config.(min_confidence)]
    else reasons in
  (* Check 3 & 4: Document type classification *)
  let doc_type := classify_document_type content in
  let is_invoice := doc_type_eqb doc_type invoice in
  let is_receipt := doc_type_eqb doc_type receipt in
  let checks := dict_set "document_type_is_invoice" is_invoice checks in
  let checks := dict_set "document_type_not_receipt" (negb is_receipt) checks in
  let reasons :=
    if config.(require_invoice_keyword) && negb is_invoice then
      if is_receipt then app reasons ["Document classified as receipt (not invoice)"]
      else app reasons ["Document type unclear - lacks invoice indicators"]
    else reasons in
  let reasons :=
    if config.(reject_receipt_keyword) && is_receipt then
      app reasons ["Document classified as receipt (not invoice)"]
    else reasons in
  (* Check 5: Bill To verification *)
  let '(bill_to_ok, reasons) :=
    match config.(allowed_bill_to_names) with
    | [] => (true, reasons)
    | _ :: _ =>
        if negb (truthy bill_to) then
          (false, app reasons ["Bill To field not found on invoice"])
        else
          let bill_to_lower := lower (unwrap_str bill_to) in
          let ok := existsb (fun allowed => contains (lower allowed) bill_to_lower)
                            config.(allowed_bill_to_names) in
          (ok, if negb ok then
                 app reasons ["Invoice not addressed to authorized company (found: '"
                             ++ unwrap_str bill_to ++ "')"]
               else reasons)
    end in
  let checks := dict_set "bill_to_authorized" bill_to_ok checks in
  (* Determine final decision *)
  let all_checks_passed :=
    forallb id [amount_ok; confidence_ok;
                (if config.(require_invoice_keyword) then is_invoice else true);
                (if config.(reject_receipt_keyword) then negb is_receipt else true);
                bill_to_ok] in
  let reason :=
    if all_checks_passed then
      "Auto-approved: $" ++ fmt_2f amount ++ ", " ++ fmt_pct1 confidence
      ++ " confidence"
    else "Requires manual review: " ++ join "; " reasons in
  {| approved := all_checks_passed;
     reason := reason;
     checks := checks;
     metadata := {| md_amount := amount; md_confidence := confidence;
                    md_vendor := vendor; md_config := config |} |}.

End Evaluate.

(** * The spec's view of the decision *)

(** The key set of [checks], in insertion order. *)
Definition check_keys : list string :=
  ["amount_within_limit"; "confidence_sufficient"; "document_type_is_invoice";
   "document_type_not_receipt"; "bill_to_authorized"].

(** A check passes when its key maps to [True] in [checks]. *)
Definition check_passed (key : string) (d : ApprovalDecision) : bool :=
  match dict_get key (checks d) with Some b => b | None => false end.

(** Whether the final [all([...])] of [evaluate] takes a check's boolean into
    account: the two document-type checks only when their flag is set,
    every other check always. *)
Definition check_enforced (config : ApprovalRulesConfig) (key : string) : bool :=
  if String.eqb key "document_type_is_invoice" then require_invoice_keyword config
  else if String.eqb key "document_type_not_receipt" then reject_receipt_keyword config
  else true.

Section ReasonSpec.

Variable fmt_2f : float -> string.
Variable fmt_pct1 : float -> string.

(** The five checks in their fixed order 1..5: key, whether the
    configuration enforces it, and the clause reported when it fails. *)
Definition check_table (config : ApprovalRulesConfig) (amount confidence : float)
    (content bill_to : option string) : list (string * bool * string) :=
  let dt := classify_document_type content in
  [("amount_within_limit", true,
    "Amount $" ++ fmt_2f amount ++ " exceeds limit of $"
    ++ fmt_2f config.(amount_threshold));
   ("confidence_sufficient", true,
    "Confidence " ++ fmt_pct1 confidence ++ " below minimum "
    ++ fmt_pct1 config.(min_confidence));
   ("document_type_is_invoice", config.(require_invoice_keyword),
    if doc_type_eqb dt receipt then "Document classified as receipt (not invoice)"
    else "Document type unclear - lacks invoice indicators");
   ("document_type_not_receipt", config.(reject_receipt_keyword),
    "Document classified as receipt (not invoice)");
   ("bill_to_authorized",
    match config.(allowed_bill_to_names) with [] => false | _ => true end,
    if truthy bill_to then
      "Invoice not addressed to authorized company (found: '"
      ++ unwrap_str bill_to ++ "')"
    else "Bill To field not found on invoice")].

(** The clauses of the enforced checks that failed in [d], in order. *)
Definition failed_clauses (config : ApprovalRulesConfig) (amount confidence : float)
    (content bill_to : option string) (d : ApprovalDecision) : list string :=
  map (fun '(_, _, clause) => clause)
    (filter (fun '(key, enforced, _) => enforced && negb (check_passed key d))
       (check_table config amount confidence content bill_to)).

End ReasonSpec.

(** * In-memory approval tracking: [services/storage/approvals.py] *)

(** [str(uuid.uuid4())] and [datetime.utcnow().isoformat()] are read by the
    operations from the outside world: here they are arguments. *)

Module ApprovalsMem.

Section Tracker.

Variable InvoiceData : Type.

(** The dict stored per approval id. *)
Record Approval := {
  id : string;
  invoice_data : InvoiceData;
  status : string;
  created_at : string;
  decided_at : option string;
  decided_by : option string
}.

(** [self._approvals: Dict[str, dict]], in insertion order. *)
Definition store := list (string * Approval).

(** [self._approvals.get(k)]. *)
Fixpoint lookup (k : string) (s : store) : option Approval :=
  match s with
  | [] => None
  | (k', a) :: s' => if String.eqb k k' then Some a else lookup k s'
  end.

(** [self._approvals[k] = v]: overwrite in place, or append. *)
Fixpoint insert (k : string) (v : Approval) (s : store) : store :=
  match s with
  | [] => [(k, v)]
  | (k', a) :: s' => if String.eqb k k' then (k', v) :: s' else (k', a) :: insert k v s'
  end.

Definition create_approval (approval_id now : string) (data : InvoiceData)
    (s : store) : string * store :=
  (approval_id,
   insert approval_id
     {| id := approval_id; invoice_data := data; status := "pending";
        created_at := now; decided_at := None; decided_by := None |} s).

Definition get_approval (approval_id : string) (s : store) : option Approval :=
  lookup approval_id s.

(** [approve(approval_id, approver)]: the three item assignments update the
    stored dict in place. *)
Definition approve (approval_id approver now : string) (s : store) : bool * store :=
  match lookup approval_id s with
  | None => (false, s)
  | Some a =>
      (true,
       insert approval_id
         {| id := a.(id); invoice_data := a.(invoice_data); status := "approved";
            created_at := a.(created_at); decided_at := Some now;
            decided_by := Some approver |} s)
  end.

Definition reject (approval_id rejector now : string) (s : store) : bool * store :=
  match lookup approval_id s with
  | None => (false, s)
  | Some a =>
      (true,
       insert approval_id
         {| id := a.(id); invoice_data := a.(invoice_data); status := "rejected";
            created_at := a.(created_at); decided_at := Some now;
            decided_by := Some rejector |} s)
  end.

Definition list_all (s : store) : list Approval := map snd s.

(** The stores the tracker can reach from [ApprovalTracker()]: any sequence
    of its three mutating operations, with any ids, names and clock
    readings. *)
Inductive reachable : store -> Prop :=
| reach_init : reachable []
| reach_create s i now d :
    reachable s -> reachable (snd (create_approval i now d s))
| reach_approve s i who now :
    reachable s -> reachable (snd (approve i who now s))
| reach_reject s i who now :
    reachable s -> reachable (snd (reject i who now s)).

(** What a well-formed stored record looks like: keyed by its own id,
    and either undecided or decided with a time and a decider. *)
Definition record_ok (p : string * Approval) : Prop :=
  fst p = id (snd p) /\
  ((status (snd p) = "pending" /\ decided_at (snd p) = None /\ decided_by (snd p) = None)
   \/ ((status (snd p) = "approved" \/ status (snd p) = "rejected")
       /\ decided_at (snd p) <> None /\ decided_by (snd p) <> None)).

End Tracker.

Arguments id {InvoiceData}.
Arguments invoice_data {InvoiceData}.
Arguments status {InvoiceData}.
Arguments created_at {InvoiceData}.
Arguments decided_at {InvoiceData}.
Arguments decided_by {InvoiceData}.
Arguments lookup {InvoiceData}.
Arguments insert {InvoiceData}.
Arguments create_approval {InvoiceData}.
Arguments get_approval {InvoiceData}.
Arguments approve {InvoiceData}.
Arguments reject {InvoiceData}.
Arguments list_all {InvoiceData}.
Arguments reachable {InvoiceData}.
Arguments record_ok {InvoiceData}.

End ApprovalsMem.

(** * Approval endpoints: [api/routers/invoice.py] *)

(** The router's [approval_tracker] is modelled by [ApprovalsMem]; the HTML
    pages are given by the values they interpolate, and an [HTTPException]
    by its status code and detail. *)

Module InvoiceRouter.

Import ApprovalsMem.

Section Router.

Variable InvoiceData : Type.

Inductive http_result (A : Type) :=
| Ok (a : A)
| HTTPException (status_code : Z) (detail : string).

Arguments Ok {A}.
Arguments HTTPException {A}.

(** The three pages of [approve_invoice] and [reject_invoice]. *)
Inductive decision_page :=
| AlreadyProcessed (previous_status : string) (previous_decided_at : option string)
| InvoiceApproved (data : InvoiceData)
| InvoiceRejected (data : InvoiceData).

(** [GET /invoices/approval/{approval_id}/approve]. *)
Definition approve_invoice (approval_id now : string) (s : store InvoiceData)
    : http_result decision_page * store InvoiceData :=
  match get_approval approval_id s with
  | None => (HTTPException 404 "Approval request not found", s)
  | Some approval =>
      if negb (String.eqb approval.(status) "pending") then
        (Ok (AlreadyProcessed approval.(status) approval.(decided_at)), s)
      else
        let '(_, s') := approve approval_id "user" now s in
        (Ok (InvoiceApproved approval.(invoice_data)), s')
  end.

(** [GET /invoices/approval/{approval_id}/reject]. *)
Definition reject_invoice (approval_id now : string) (s : store InvoiceData)
    : http_result decision_page * store InvoiceData :=
  match get_approval approval_id s with
  | None => (HTTPException 404 "Approval request not found", s)
  | Some approval =>
      if negb (String.eqb approval.(status) "pending") then
        (Ok (AlreadyProcessed approval.(status) approval.(decided_at)), s)
      else
        let '(_, s') := reject approval_id "user" now s in
        (Ok (InvoiceRejected approval.(invoice_data)), s')
  end.

(** [POST /invoices/process], after [extract_invoice_fields]: [data] is the
    [invoice_data] dict built from the extraction and [confidence] its
    [extracted.confidence]. [post_approval_card] is the Teams call: [inl]
    its result, or [inr] the message [str(e)] of the exception it raises
    (an [httpx] error, for instance). *)
Variable CardResult : Type.
Variable post_approval_card : InvoiceData -> string -> CardResult + string.

Inductive process_response :=
| AutoApproved (confidence : float) (approval_id : string) (data : InvoiceData)
| PendingApproval (confidence : float) (approval_id : string) (data : InvoiceData)
    (teams_result : CardResult).

(** The [try] body; [except Exception as e] turns a raised exception into
    [HTTPException(status_code=400, detail=str(e))]. The approval record is
    created before the Teams call, so it stays in the store when the call
    raises. *)
Definition process_invoice (confidence confidence_threshold : float)
    (data : InvoiceData) (new_id now_created now_decided : string)
    (s : store InvoiceData) : http_result process_response * store InvoiceData :=
  if PrimFloat.leb confidence_threshold confidence then
    let '(approval_id, s1) := create_approval new_id now_created data s in
    let '(_, s2) := approve approval_id "system-auto" now_decided s1 in
    (Ok (AutoApproved confidence approval_id data), s2)
  else
    let '(approval_id, s1) := create_approval new_id now_created data s in
    match post_approval_card data approval_id with
    | inl result => (Ok (PendingApproval confidence approval_id data result), s1)
    | inr e => (HTTPException 400 e, s1)
    end.

(** One entry of [GET /invoices/approvals/approved]; the [invoice.get(...)]
    fields are read from [entry_invoice]. *)
Record approved_entry := {
  entry_approval_id : string;
  entry_invoice : InvoiceData;
  approval_type : string;
  approved_by : option string;
  approved_at : option string;
  entry_created_at : string
}.

Definition to_entry (approval : Approval InvoiceData) : approved_entry :=
  {| entry_approval_id := approval.(id);
     entry_invoice := approval.(invoice_data);
     approval_type :=
       match approval.(decided_by) with
       | Some who => if String.eqb who "system-auto" then "AI Auto-Approved"
                     else "Human Approved"
       | None => "Human Approved"
       end;
     approved_by := approval.(decided_by);
     approved_at := approval.(decided_at);
     entry_created_at := approval.(created_at) |}.

(** [result.sort(key=lambda x: x["approved_at"], reverse=True)]: a stable
    sort, descending by key; comparing [None] with anything raises
    [TypeError], here [None]. An element goes before a sorted element only
    when its key is strictly greater, which keeps equal keys in input
    order. *)
Fixpoint insert_desc (x : approved_entry) (sorted : list approved_entry)
    : option (list approved_entry) :=
  match sorted with
  | [] => Some [x]
  | y :: ys =>
      match x.(approved_at), y.(approved_at) with
      | Some kx, Some ky =>
          if String.ltb ky kx then Some (x :: y :: ys)
          else option_map (cons y) (insert_desc x ys)
      | _, _ => None
      end
  end.

Definition sort_desc (xs : list approved_entry) : option (list approved_entry) :=
  fold_left (fun acc x => match acc with
                          | Some sorted => insert_desc x sorted
                          | None => None
                          end) xs (Some []).

(** The response: [total_approved] and [invoices]; [None] when the sort
    raises. *)
Definition list_approved_invoices (s : store InvoiceData)
    : option (nat * list approved_entry) :=
  let approved := filter (fun a => String.eqb a.(status) "approved") (list_all s) in
  let result := map to_entry approved in
  match sort_desc result with
  | Some sorted => Some (length sorted, sorted)
  | None => None
  end.


(** A sequence of requests to the two decision endpoints, each with the
    clock reading at which it is served. *)
Inductive handler_call :=
| call_approve (approval_id now : string)
| call_reject (approval_id now : string).

Definition handle (c : handler_call) (s : store InvoiceData) : store InvoiceData :=
  match c with
  | call_approve i now => snd (approve_invoice i now s)
  | call_reject i now => snd (reject_invoice i now s)
  end.

Definition run_handlers (calls : list handler_call) (s : store InvoiceData)
    : store InvoiceData :=
  fold_left (fun s c => handle c s) calls s.

(** [x] may stand before [y] in the sorted response: both keys are set
    and [x]'s is not smaller. *)
Definition desc_ok (x y : approved_entry) : Prop :=
  match x.(approved_at), y.(approved_at) with
  | Some kx, Some ky => String.ltb kx ky = false
  | _, _ => False
  end.

End Router.

Arguments Ok {A}.
Arguments HTTPException {A}.
Arguments AlreadyProcessed {InvoiceData}.
Arguments InvoiceApproved {InvoiceData}.
Arguments InvoiceRejected {InvoiceData}.
Arguments approve_invoice {InvoiceData}.
Arguments reject_invoice {InvoiceData}.
Arguments AutoApproved {InvoiceData CardResult}.
Arguments PendingApproval {InvoiceData CardResult}.
Arguments process_invoice {InvoiceData CardResult}.
Arguments entry_approval_id {InvoiceData}.
Arguments entry_invoice {InvoiceData}.
Arguments approval_type {InvoiceData}.
Arguments approved_by {InvoiceData}.
Arguments approved_at {InvoiceData}.
Arguments entry_created_at {InvoiceData}.
Arguments to_entry {InvoiceData}.
Arguments insert_desc {InvoiceData}.
Arguments sort_desc {InvoiceData}.
Arguments list_approved_invoices {InvoiceData}.
Arguments handle {InvoiceData}.
Arguments run_handlers {InvoiceData}.
Arguments desc_ok {InvoiceData}.

End InvoiceRouter.

(** * More Python [str] methods *)

Module PyStrMethods.

(** [str.isspace()] on code points below 256: \t \n \v \f \r, the
    separators \x1c..\x1f, space, \x85 and \xa0. *)
Definition py_isspace (c : ascii) : bool :=
  let n := nat_of_ascii c in
  ((Nat.leb 9 n && Nat.leb n 13) || (Nat.leb 28 n && Nat.leb n 32)
   || Nat.eqb n 133 || Nat.eqb n 160)%bool.

Fixpoint lstrip (s : string) : string :=
  match s with
  | EmptyString => EmptyString
  | String c s' => if py_isspace c then lstrip s' else s
  end.

Fixpoint rstrip (s : string) : string :=
  match s with
  | EmptyString => EmptyString
  | String c s' =>
      let r := rstrip s' in
      match r with
      | EmptyString => if py_isspace c then EmptyString else String c EmptyString
      | _ => String c r
      end
  end.

(** [s.strip()]. *)
Definition strip (s : string) : string := rstrip (lstrip s).

(** [s.split(sep)] for a one-character separator: every occurrence splits,
    empty pieces included. *)
Fixpoint split (sep : ascii) (s : string) : list string :=
  match s with
  | EmptyString => [EmptyString]
  | String c s' =>
      if Ascii.eqb c sep then EmptyString :: split sep s'
      else match split sep s' with
           | [] => [String c EmptyString]
           | piece :: rest => String c piece :: rest
           end
  end.

(** [s.replace(old, "")] for a non-empty [old]: left to right,
    non-overlapping; [fuel] bounds the length of [s]. *)
Fixpoint remove_fuel (fuel : nat) (old s : string) : string :=
  match fuel with
  | O => s
  | S fuel' =>
      match s with
      | EmptyString => EmptyString
      | String c s' =>
          if String.prefix old s then
            remove_fuel fuel' old (substring (String.length old) (String.length s) s)
          else String c (remove_fuel fuel' old s')
      end
  end.

Definition replace_empty (old s : string) : string :=
  match old with
  | EmptyString => s
  | _ => remove_fuel (String.length s) old s
  end.

End PyStrMethods.

Import PyStrMethods.

(** * [create_approval_rules]: [services/approval_rules.py] *)

Module RulesFactory.

(** The four [approval_*] fields of [core.config.Settings] that the factory
    reads. *)
Record Settings := {
  approval_amount_threshold : float;
  approval_min_confidence : float;
  approval_require_invoice_keyword : bool;
  approval_reject_receipt_keyword : bool;
  approval_allowed_bill_to_names : string
}.

(** [[name.strip() for name in bill_to_env.split(',') if name.strip()]]. *)
Definition parse_bill_to_names (bill_to_env : string) : list string :=
  map strip (filter (fun name => truthy (Some (strip name))) (split "," bill_to_env)).

Definition from_override {A : Type} (override : option A) (setting : A) : A :=
  match override with Some v => v | None => setting end.

(** The configuration of the returned [InvoiceApprovalRules]; [None] is a
    parameter left at its default [None]. *)
Definition create_approval_rules (settings : Settings)
    (amount_threshold min_confidence : option float)
    (require_invoice_keyword reject_receipt_keyword : option bool)
    (allowed_bill_to_names : option (list string)) : ApprovalRulesConfig :=
  let allowed :=
    match allowed_bill_to_names with
    | Some names => names
    | None =>
        let bill_to_env := settings.(approval_allowed_bill_to_names) in
        if truthy (Some bill_to_env) then parse_bill_to_names bill_to_env else []
    end in
  {| amount_threshold := from_override amount_threshold settings.(approval_amount_threshold);
     min_confidence := from_override min_confidence settings.(approval_min_confidence);
     require_invoice_keyword :=
       from_override require_invoice_keyword settings.(approval_require_invoice_keyword);
     reject_receipt_keyword :=
       from_override reject_receipt_keyword settings.(approval_reject_receipt_keyword);
     allowed_bill_to_names := allowed |}.

End RulesFactory.

(** * Total parsing in [extract_invoice_fields]: [services/form_recognizer.py] *)

Module FormRecognizer.

(** Lines 78-83: strip "$" and ",", then the currency codes in order,
    then whitespace; the result is handed to [float()]. *)
Definition clean_total_str (invoice_total_raw : string) : string :=
  let total_str := replace_empty "," (replace_empty "$" invoice_total_raw) in
  let total_str :=
    fold_left (fun acc curr_code => replace_empty curr_code acc)
      ["USD"; "AUD"; "EUR"; "GBP"; "CAD"; "JPY"; "CNY"] total_str in
  strip total_str.

End FormRecognizer.

(** * Facts about [evaluate] *)

Example classify_case_insensitive_example :
  classify_document_type (Some "INVOICE
AMOUNT DUE: $100
PLEASE REMIT") = invoice.
Proof. reflexivity. Qed.

(** Python's [a == b] on floats implies [a <= b]. *)
Lemma float_eqb_leb (x y : float) :
  PrimFloat.eqb x y = true -> PrimFloat.leb x y = true.
Proof.
  rewrite FloatAxioms.eqb_spec, FloatAxioms.leb_spec.
  unfold SFeqb, SFleb.
  destruct (SFcompare _ _) as [[| |]|]; congruence.
Qed.

(** ** Substring facts *)

Lemma prefix_append (s q : string) : String.prefix s (s ++ q) = true.
Proof.
  induction s as [|c s IH]; cbn; [destruct q; reflexivity|].
  destruct (ascii_dec c c); [exact IH | congruence].
Qed.

Lemma contains_append_l (s q : string) : contains s (s ++ q) = true.
Proof.
  destruct s as [|c s']; cbn; [destruct q; reflexivity|].
  rewrite (prefix_append (String c s') q) at 1; reflexivity.
Qed.

Lemma contains_append_r (s p r : string) :
  contains s r = true -> contains s (p ++ r) = true.
Proof.
  intros H; induction p as [|c p IH]; [exact H|]; cbn [append].
  change (contains s (String c (p ++ r))) with
    (if String.prefix s (String c (p ++ r)) then true else contains s (p ++ r)).
  destruct (String.prefix s (String c (p ++ r))); [reflexivity | exact IH].
Qed.

Lemma append_empty_r (s : string) : (s ++ "")%string = s.
Proof. induction s as [|c s IH]; cbn; congruence. Qed.

Lemma append_assoc (a b c : string) : ((a ++ b) ++ c)%string = (a ++ b ++ c)%string.
Proof. induction a as [|x a IH]; cbn; congruence. Qed.

Lemma join_snoc (sep x : string) (xs : list string) :
  exists p, join sep (app xs [x]) = (p ++ x)%string.
Proof.
  induction xs as [|y xs [p Hp]]; cbn.
  - exists ""; reflexivity.
  - destruct (app xs [x]) eqn:E; [destruct xs; discriminate|].
    exists (y ++ sep ++ p)%string; rewrite Hp, !append_assoc; reflexivity.
Qed.

Lemma contains_join_snoc (sep x : string) (xs : list string) :
  contains x (join sep (app xs [x])) = true.
Proof.
  destruct (join_snoc sep x xs) as [p ->].
  apply contains_append_r; rewrite <- (append_empty_r x) at 2.
  apply contains_append_l.
Qed.

(** Split [evaluate] on every value its branches test, then reduce. *)
Ltac eval_cases config amount confidence content bill_to :=
  (destruct (allowed_bill_to_names config) as [|? ?];
   [| destruct (truthy bill_to);
      [destruct (existsb (fun allowed => contains (lower allowed) _) _) |]]);
  cbn -[append classify_document_type contains lower];
  destruct (classify_document_type content);
  destruct (PrimFloat.leb amount (amount_threshold config));
  destruct (PrimFloat.leb (min_confidence config) confidence);
  destruct (require_invoice_keyword config);
  destruct (reject_receipt_keyword config);
  cbn -[append classify_document_type contains lower].

Section EvaluateFacts.

Variable fmt_2f : float -> string.
Variable fmt_pct1 : float -> string.

(** C2: [approved] holds exactly when every enforced check holds: checks
    1, 2 and 5 always, check 3 only under [require_invoice_keyword], check 4
    only under [reject_receipt_keyword]. *)
Theorem approved_iff_enforced_checks (config : ApprovalRulesConfig)
    (amount confidence : float) (content vendor bill_to : option string) :
  let d := evaluate fmt_2f fmt_pct1 config amount confidence content vendor bill_to in
  approved d = true <->
  (dict_get "amount_within_limit" (checks d) = Some true /\
   dict_get "confidence_sufficient" (checks d) = Some true /\
   (require_invoice_keyword config = true ->
    dict_get "document_type_is_invoice" (checks d) = Some true) /\
   (reject_receipt_keyword config = true ->
    dict_get "document_type_not_receipt" (checks d) = Some true) /\
   dict_get "bill_to_authorized" (checks d) = Some true).
Proof.
  cbv zeta; unfold evaluate.
  eval_cases config amount confidence content bill_to; intuition congruence.
Qed.

(** C4: the two threshold checks are Python's [amount <= amount_threshold]
    and [confidence >= min_confidence]; a value equal ([==]) to its bound
    passes. *)
Theorem threshold_checks_inclusive (config : ApprovalRulesConfig)
    (amount confidence : float) (content vendor bill_to : option string) :
  let d := evaluate fmt_2f fmt_pct1 config amount confidence content vendor bill_to in
  dict_get "amount_within_limit" (checks d)
    = Some (PrimFloat.leb amount config.(amount_threshold)) /\
  dict_get "confidence_sufficient" (checks d)
    = Some (PrimFloat.leb config.(min_confidence) confidence) /\
  (PrimFloat.eqb amount config.(amount_threshold) = true ->
   dict_get "amount_within_limit" (checks d) = Some true) /\
  (PrimFloat.eqb config.(min_confidence) confidence = true ->
   dict_get "confidence_sufficient" (checks d) = Some true).
Proof.
  cbv zeta.
  repeat split; unfold evaluate; cbn -[append classify_document_type contains lower];
    intros.
  all: repeat match goal with
  | |- context [allowed_bill_to_names ?c] => destruct (allowed_bill_to_names c)
  | |- context [truthy ?b] => destruct (truthy b)
  end; cbn -[append classify_document_type contains lower]; try reflexivity.
  all: rewrite float_eqb_leb by assumption; reflexivity.
Qed.

(** C6: [checks] has exactly the five keys, in the order of the source,
    and the two document-type entries report the classifier's verdict
    whatever the enforcement flags are. *)
Theorem checks_fixed_key_set (config : ApprovalRulesConfig)
    (amount confidence : float) (content vendor bill_to : option string) :
  let d := evaluate fmt_2f fmt_pct1 config amount confidence content vendor bill_to in
  map fst (checks d) = check_keys /\
  dict_get "document_type_is_invoice" (checks d)
    = Some (doc_type_eqb (classify_document_type content) invoice) /\
  dict_get "document_type_not_receipt" (checks d)
    = Some (negb (doc_type_eqb (classify_document_type content) receipt)).
Proof.
  cbv zeta; unfold evaluate; cbn -[append classify_document_type contains lower].
  destruct (allowed_bill_to_names config); [|destruct (truthy bill_to)];
    cbn -[append classify_document_type contains lower]; repeat split.
Qed.

(** C1 (amended): [approved] is the conjunction of the enforced entries of
    [checks] (a non-enforced entry counts as passing); and when
    [require_invoice_keyword] is on (the default), whatever
    [reject_receipt_keyword] is, [approved] is the conjunction of every
    entry of [checks]. *)
Theorem approved_iff_all_checks_when_enforced (config : ApprovalRulesConfig)
    (amount confidence : float) (content vendor bill_to : option string) :
  let d := evaluate fmt_2f fmt_pct1 config amount confidence content vendor bill_to in
  approved d = forallb (fun kb => implb (check_enforced config (fst kb)) (snd kb)) (checks d) /\
  (require_invoice_keyword config = true -> approved d = forallb snd (checks d)).
Proof.
  cbv zeta; unfold evaluate, check_enforced.
  eval_cases config amount confidence content bill_to;
    split; try reflexivity; intros Hinv; discriminate Hinv || reflexivity.
Qed.

(** C5 (amended): the bill-to check passes when no whitelist is
    configured; with a whitelist it fails when [bill_to] is absent or the
    empty string, and otherwise passes iff some entry, lowered, is a
    substring of the lowered [bill_to]. *)
Theorem bill_to_check_falsy_or_match (config : ApprovalRulesConfig)
    (amount confidence : float) (content vendor bill_to : option string) :
  let d := evaluate fmt_2f fmt_pct1 config amount confidence content vendor bill_to in
  (allowed_bill_to_names config = [] ->
   dict_get "bill_to_authorized" (checks d) = Some true) /\
  (allowed_bill_to_names config <> [] ->
   (bill_to = None \/ bill_to = Some "") ->
   dict_get "bill_to_authorized" (checks d) = Some false) /\
  (allowed_bill_to_names config <> [] -> forall b, bill_to = Some b -> b <> "" ->
   dict_get "bill_to_authorized" (checks d)
     = Some (existsb (fun allowed => contains (lower allowed) (lower b))
                     (allowed_bill_to_names config))).
Proof.
  cbv zeta; unfold evaluate; cbn -[append classify_document_type contains lower].
  destruct (allowed_bill_to_names config) as [|h t]; cbn -[append classify_document_type contains lower].
  - split; [reflexivity|]; split; intros H; congruence.
  - split; [discriminate|]; split.
    + intros _ [-> | ->]; reflexivity.
    + intros _ b -> Hb; destruct b as [|c b]; [congruence|].
      cbn -[append contains lower].
      destruct (existsb _ _); reflexivity.
Qed.

(** The reason string as assembled: the approval summary, or the marker
    followed by the failed enforced clauses. *)
Lemma reason_of_decision (config : ApprovalRulesConfig)
    (amount confidence : float) (content vendor bill_to : option string) :
  let d := evaluate fmt_2f fmt_pct1 config amount confidence content vendor bill_to in
  reason d =
  if approved d then
    "Auto-approved: $" ++ fmt_2f amount ++ ", " ++ fmt_pct1 confidence ++ " confidence"
  else
    "Requires manual review: "
    ++ join "; " (failed_clauses fmt_2f fmt_pct1 config amount confidence content bill_to d).
Proof.
  cbv zeta; unfold evaluate, failed_clauses, check_table, check_passed.
  eval_cases config amount confidence content bill_to; reflexivity.
Qed.

(** C8: an approved decision's reason is the positive summary, which
    contains the formatted amount and confidence; a rejected decision's
    reason is the manual-review marker followed by the clause of each
    failed enforced check, in check order 1..5, joined by "; ". *)
Theorem reason_summary_or_failed_clauses (config : ApprovalRulesConfig)
    (amount confidence : float) (content vendor bill_to : option string) :
  let d := evaluate fmt_2f fmt_pct1 config amount confidence content vendor bill_to in
  (approved d = true ->
   reason d = "Auto-approved: $" ++ fmt_2f amount ++ ", " ++ fmt_pct1 confidence
              ++ " confidence" /\
   contains (fmt_2f amount) (reason d) = true /\
   contains (fmt_pct1 confidence) (reason d) = true) /\
  (approved d = false ->
   reason d = "Requires manual review: "
              ++ join "; " (failed_clauses fmt_2f fmt_pct1 config amount confidence
                              content bill_to d)).
Proof.
  cbv zeta; rewrite reason_of_decision.
  split; intros Ha; rewrite Ha; [|reflexivity].
  split; [reflexivity|split].
  - apply contains_append_r, contains_append_l.
  - apply contains_append_r, contains_append_r, contains_append_r, contains_append_l.
Qed.

(** C10: with a whitelist configured, [bill_to = ""] yields the same
    decision as an absent [bill_to]: the bill-to check fails and the reason
    carries the field-not-found clause. *)
Theorem empty_bill_to_same_as_absent (config : ApprovalRulesConfig)
    (amount confidence : float) (content vendor : option string)
    (Hwl : allowed_bill_to_names config <> []) :
  let d := evaluate fmt_2f fmt_pct1 config amount confidence content vendor (Some "") in
  d = evaluate fmt_2f fmt_pct1 config amount confidence content vendor None /\
  dict_get "bill_to_authorized" (checks d) = Some false /\
  approved d = false /\
  contains "Bill To field not found on invoice" (reason d) = true.
Proof.
  cbv zeta; split; [reflexivity|].
  unfold evaluate.
  destruct (allowed_bill_to_names config) as [|h t]; [congruence|].
  cbn -[join append classify_document_type lower contains].
  rewrite !andb_false_r; split; [reflexivity|split; [reflexivity|]].
  apply contains_append_r, contains_join_snoc.
Qed.

End EvaluateFacts.

(** * Closed statements *)

(** C3: absent or empty text is [unknown]; any other text is [invoice]
    exactly when its score is above 2, [receipt] exactly when it is below
    -2, and [unknown] otherwise. *)
Theorem classify_by_score (text : option string) :
  ((text = None \/ text = Some "") -> classify_document_type text = unknown) /\
  (forall s, text = Some s -> s <> "" ->
   (classify_document_type text = invoice <-> 2 < score (lower s)) /\
   (classify_document_type text = receipt <-> score (lower s) < -2) /\
   (classify_document_type text = unknown <-> -2 <= score (lower s) <= 2)).
Proof.
  split.
  - intros [-> | ->]; reflexivity.
  - intros s -> Hs; unfold classify_document_type.
    destruct s as [|c s']; [congruence|].
    change (truthy (Some (String c s'))) with true; cbv beta iota.
    set (z := score (lower (String c s'))).
    destruct (Z.ltb_spec 2 z); [|destruct (Z.ltb_spec z (-2))];
      repeat split; intros; try discriminate; try reflexivity; lia.
Qed.

(** C7: [classify_document_type] and [evaluate] are functions of their
    arguments: equal arguments give equal results, decision fields
    included. *)
Theorem classify_evaluate_deterministic :
  (forall t1 t2 : option string, t1 = t2 ->
   classify_document_type t1 = classify_document_type t2) /\
  (forall (fmt_2f fmt_pct1 : float -> string) (config1 config2 : ApprovalRulesConfig)
     (amount1 amount2 confidence1 confidence2 : float)
     (content1 content2 vendor1 vendor2 bill_to1 bill_to2 : option string),
   config1 = config2 -> amount1 = amount2 -> confidence1 = confidence2 ->
   content1 = content2 -> vendor1 = vendor2 -> bill_to1 = bill_to2 ->
   let d1 := evaluate fmt_2f fmt_pct1 config1 amount1 confidence1 content1 vendor1 bill_to1 in
   let d2 := evaluate fmt_2f fmt_pct1 config2 amount2 confidence2 content2 vendor2 bill_to2 in
   approved d1 = approved d2 /\ reason d1 = reason d2 /\
   checks d1 = checks d2 /\ metadata d1 = metadata d2 /\ d1 = d2).
Proof.
  split; intros; subst; repeat split.
Qed.

(** C9: a text carrying the word "invoice" next to "amount paid",
    "payment received", "direct debit" and "$0.00" is classified as a
    receipt. *)
Theorem confirmation_cues_beat_invoice_word :
  exists text : string,
    contains "invoice" (lower text) = true /\
    contains "amount paid" (lower text) = true /\
    contains "payment received" (lower text) = true /\
    contains "direct debit" (lower text) = true /\
    contains "$0.00" (lower text) = true /\
    classify_document_type (Some text) = receipt.
Proof.
  exists "INVOICE
Amount Paid: $500
Payment received via direct debit
Balance: $0.00".
  vm_compute; repeat split.
Qed.

(** C1 does not hold as stated: with [require_invoice_keyword] off, an
    [unknown] document is approved while [document_type_is_invoice] is
    false in [checks]. *)
Lemma approved_iff_all_checks_counterexample :
  ~ (forall (fmt_2f fmt_pct1 : float -> string) (config : ApprovalRulesConfig)
        (amount confidence : float) (content vendor bill_to : option string),
      let d := evaluate fmt_2f fmt_pct1 config amount confidence content vendor bill_to in
      approved d = forallb snd (checks d)).
Proof.
  intros H.
  specialize (H (fun _ => "") (fun _ => "")
    {| amount_threshold := 500.0%float; min_confidence := 0.85%float;
       require_invoice_keyword := false; reject_receipt_keyword := true;
       allowed_bill_to_names := [] |}
    100.0%float 0.9%float None None None).
  vm_compute in H; discriminate H.
Qed.

(** C1 (amended), with the invoice check enforced and the receipt check
    not enforced. *)
Lemma approved_iff_all_checks_when_enforced_witness :
  let config := {| amount_threshold := 500.0%float; min_confidence := 0.85%float;
                   require_invoice_keyword := true; reject_receipt_keyword := false;
                   allowed_bill_to_names := [] |} in
  require_invoice_keyword config = true /\
  approved (evaluate (fun _ => "") (fun _ => "") config 450.0%float 0.92%float
              (Some "INVOICE") None None)
  = forallb snd (checks (evaluate (fun _ => "") (fun _ => "") config 450.0%float
                          0.92%float (Some "INVOICE") None None)).
Proof.
  cbv zeta; split; [reflexivity|].
  exact (proj2 (approved_iff_all_checks_when_enforced (fun _ => "") (fun _ => "")
           {| amount_threshold := 500.0%float; min_confidence := 0.85%float;
              require_invoice_keyword := true; reject_receipt_keyword := false;
              allowed_bill_to_names := [] |}
           450.0%float 0.92%float (Some "INVOICE") None None) eq_refl).
Defined.

(** C5 does not hold as stated: with the whitelist [[""]] and
    [bill_to = ""], the entry is a substring of [bill_to] but the check
    fails, since the empty string is falsy. *)
Lemma bill_to_check_counterexample :
  ~ (forall (fmt_2f fmt_pct1 : float -> string) (config : ApprovalRulesConfig)
        (amount confidence : float) (content vendor bill_to : option string),
      let d := evaluate fmt_2f fmt_pct1 config amount confidence content vendor bill_to in
      (allowed_bill_to_names config = [] ->
       dict_get "bill_to_authorized" (checks d) = Some true) /\
      (allowed_bill_to_names config <> [] ->
       (bill_to = None -> dict_get "bill_to_authorized" (checks d) = Some false) /\
       (forall b, bill_to = Some b ->
        dict_get "bill_to_authorized" (checks d)
          = Some (existsb (fun allowed => contains (lower allowed) (lower b))
                          (allowed_bill_to_names config))))).
Proof.
  intros H.
  destruct (H (fun _ => "") (fun _ => "")
    {| amount_threshold := 500.0%float; min_confidence := 0.85%float;
       require_invoice_keyword := true; reject_receipt_keyword := true;
       allowed_bill_to_names := [""] |}
    100.0%float 0.9%float None None (Some "")) as [_ H2].
  destruct (H2 ltac:(discriminate)) as [_ H3].
  specialize (H3 "" eq_refl).
  vm_compute in H3; discriminate H3.
Qed.

(** C10, with the whitelist of the end-to-end scenarios. *)
Lemma empty_bill_to_same_as_absent_witness :
  allowed_bill_to_names
    {| amount_threshold := 500.0%float; min_confidence := 0.85%float;
       require_invoice_keyword := true; reject_receipt_keyword := true;
       allowed_bill_to_names := ["Acme Industries"; "Acme Corp"] |} <> [] /\
  dict_get "bill_to_authorized"
    (checks (evaluate (fun _ => "") (fun _ => "")
       {| amount_threshold := 500.0%float; min_confidence := 0.85%float;
          require_invoice_keyword := true; reject_receipt_keyword := true;
          allowed_bill_to_names := ["Acme Industries"; "Acme Corp"] |}
       450.0%float 0.92%float (Some "INVOICE") None (Some ""))) = Some false.
Proof.
  split; [discriminate|].
  exact (proj1 (proj2 (empty_bill_to_same_as_absent (fun _ => "") (fun _ => "")
    {| amount_threshold := 500.0%float; min_confidence := 0.85%float;
       require_invoice_keyword := true; reject_receipt_keyword := true;
       allowed_bill_to_names := ["Acme Industries"; "Acme Corp"] |}
    450.0%float 0.92%float (Some "INVOICE") None ltac:(discriminate)))).
Defined.

(** * Facts about the in-memory tracker *)

Module TrackerFacts.

Import ApprovalsMem.

Section TrackerFacts.

Variable D : Type.

Implicit Types (s : store D) (a : Approval D).

Lemma lookup_insert_eq (k : string) (v : Approval D) s :
  lookup k (insert k v s) = Some v.
Proof.
  induction s as [|[k' a] s IH]; cbn; [now destruct (String.eqb_spec k k)|].
  destruct (String.eqb_spec k k') as [->|Hne]; cbn.
  - now destruct (String.eqb_spec k' k').
  - destruct (String.eqb_spec k k'); [congruence|exact IH].
Qed.

Lemma lookup_insert_neq (k j : string) (v : Approval D) s :
  k <> j -> lookup j (insert k v s) = lookup j s.
Proof.
  intros Hne; induction s as [|[k' a] s IH]; cbn.
  - destruct (String.eqb_spec j k); congruence.
  - destruct (String.eqb_spec k k') as [->|]; cbn.
    + destruct (String.eqb_spec j k'); congruence.
    + destruct (String.eqb j k'); [reflexivity|exact IH].
Qed.

Lemma lookup_none_not_in (k : string) s :
  lookup k s = None <-> ~ In k (map fst s).
Proof.
  induction s as [|[k' a] s IH]; cbn; [tauto|].
  destruct (String.eqb_spec k k') as [->|Hne]; [split; [discriminate|tauto]|].
  rewrite IH; intuition congruence.
Qed.

Lemma keys_insert_present (k : string) (v : Approval D) s :
  lookup k s <> None -> map fst (insert k v s) = map fst s.
Proof.
  induction s as [|[k' a] s IH]; cbn; [congruence|].
  destruct (String.eqb_spec k k') as [->|]; cbn; [reflexivity|].
  intros H; now rewrite IH.
Qed.

Lemma insert_absent (k : string) (v : Approval D) s :
  lookup k s = None -> insert k v s = app s [(k, v)].
Proof.
  induction s as [|[k' a] s IH]; cbn; [reflexivity|].
  destruct (String.eqb k k'); [discriminate|].
  intros H; now rewrite IH.
Qed.

Lemma lookup_key (P : string * Approval D -> Prop) (k : string) a s :
  Forall P s -> lookup k s = Some a -> P (k, a).
Proof.
  induction s as [|[k' a'] s IH]; cbn; [discriminate|].
  intros HF; inversion HF; subst.
  destruct (String.eqb_spec k k') as [->|]; [congruence|auto].
Qed.

Lemma Forall_insert (P : string * Approval D -> Prop) (k : string) (v : Approval D) s :
  Forall P s -> P (k, v) -> Forall P (insert k v s).
Proof.
  induction s as [|[k' a] s IH]; cbn; intros HF Hv; [now constructor|].
  inversion HF; subst.
  destruct (String.eqb_spec k k') as [->|]; constructor; auto.
Qed.

Lemma NoDup_keys_insert (k : string) (v : Approval D) s :
  NoDup (map fst s) -> NoDup (map fst (insert k v s)).
Proof.
  intros H; destruct (lookup k s) eqn:E.
  - rewrite keys_insert_present by congruence; exact H.
  - rewrite insert_absent by exact E; rewrite map_app; cbn.
    apply NoDup_app; [exact H|repeat constructor; cbn; tauto|].
    intros x Hx [<-|[]]; apply lookup_none_not_in in E; tauto.
Qed.

Lemma approve_frame (i j who now : string) s :
  i <> j -> lookup j (snd (approve i who now s)) = lookup j s.
Proof.
  intros Hne; unfold approve; destruct (lookup i s); cbn;
    [apply lookup_insert_neq; exact Hne|reflexivity].
Qed.

Lemma reject_frame (i j who now : string) s :
  i <> j -> lookup j (snd (reject i who now s)) = lookup j s.
Proof.
  intros Hne; unfold reject; destruct (lookup i s); cbn;
    [apply lookup_insert_neq; exact Hne|reflexivity].
Qed.

Lemma reachable_records_ok s :
  reachable s -> Forall record_ok s /\ NoDup (map fst s).
Proof.
  induction 1 as [|s i now d _ [HF HN]|s i who now _ [HF HN]|s i who now _ [HF HN]].
  - split; constructor.
  - cbn; split; [|now apply NoDup_keys_insert].
    apply Forall_insert; [exact HF|].
    split; [reflexivity|left; repeat split].
  - unfold approve; destruct (lookup i s) as [a|] eqn:E; cbn; [|tauto].
    split; [|now apply NoDup_keys_insert].
    apply Forall_insert; [exact HF|].
    pose proof (lookup_key _ _ _ _ HF E) as [Hid _].
    split; [exact Hid|right; cbn; repeat split; try discriminate; now left].
  - unfold reject; destruct (lookup i s) as [a|] eqn:E; cbn; [|tauto].
    split; [|now apply NoDup_keys_insert].
    apply Forall_insert; [exact HF|].
    pose proof (lookup_key _ _ _ _ HF E) as [Hid _].
    split; [exact Hid|right; cbn; repeat split; try discriminate; now right].
Qed.

End TrackerFacts.

End TrackerFacts.

(** * Properties of the in-memory tracker *)

Module TrackerProps.

Import ApprovalsMem TrackerFacts.

Section TrackerProps.

Variable D : Type.

Implicit Types (s : store D) (a : Approval D).

(** [create_approval] with a new id adds one pending, undecided record at
    the end of [list_all], stamped with the creation time, and leaves the
    other records as they were. *)
Theorem create_approval_new_id (i now : string) (d : D) s
    (Hfresh : get_approval i s = None) :
  let rec := {| id := i; invoice_data := d; status := "pending"; created_at := now;
                decided_at := None; decided_by := None |} in
  fst (create_approval i now d s) = i /\
  get_approval i (snd (create_approval i now d s)) = Some rec /\
  list_all (snd (create_approval i now d s)) = app (list_all s) [rec] /\
  (forall j, j <> i -> get_approval j (snd (create_approval i now d s)) = get_approval j s).
Proof.
  cbv zeta; unfold create_approval, get_approval, list_all in *; cbn.
  split; [reflexivity|split; [apply lookup_insert_eq|split]].
  - rewrite insert_absent by exact Hfresh; now rewrite map_app.
  - intros j Hj; apply lookup_insert_neq; congruence.
Qed.

(** [approve] on a known id returns [True] and sets the status to
    "approved", the decision time and the approver, keeps the id, the
    invoice data and the creation time, and changes no other record and no
    key order. *)
Theorem approve_known_id (i who now : string) s a
    (Hsome : get_approval i s = Some a) :
  fst (approve i who now s) = true /\
  get_approval i (snd (approve i who now s))
    = Some {| id := id a; invoice_data := invoice_data a; status := "approved";
              created_at := created_at a; decided_at := Some now;
              decided_by := Some who |} /\
  map fst (snd (approve i who now s)) = map fst s /\
  (forall j, j <> i -> get_approval j (snd (approve i who now s)) = get_approval j s).
Proof.
  unfold get_approval in *.
  split; [unfold approve; now rewrite Hsome|split; [|split]].
  - unfold approve; rewrite Hsome; apply lookup_insert_eq.
  - unfold approve; rewrite Hsome; apply keys_insert_present; congruence.
  - intros j Hj; apply approve_frame; congruence.
Qed.

(** [reject] on a known id returns [True] and sets the status to
    "rejected", the decision time and the rejector, keeps the id, the
    invoice data and the creation time, and changes no other record and no
    key order. *)
Theorem reject_known_id (i who now : string) s a
    (Hsome : get_approval i s = Some a) :
  fst (reject i who now s) = true /\
  get_approval i (snd (reject i who now s))
    = Some {| id := id a; invoice_data := invoice_data a; status := "rejected";
              created_at := created_at a; decided_at := Some now;
              decided_by := Some who |} /\
  map fst (snd (reject i who now s)) = map fst s /\
  (forall j, j <> i -> get_approval j (snd (reject i who now s)) = get_approval j s).
Proof.
  unfold get_approval in *.
  split; [unfold reject; now rewrite Hsome|split; [|split]].
  - unfold reject; rewrite Hsome; apply lookup_insert_eq.
  - unfold reject; rewrite Hsome; apply keys_insert_present; congruence.
  - intros j Hj; apply reject_frame; congruence.
Qed.

(** The tracker itself does not make a decision final: rejecting an
    approved record (or approving a rejected one) succeeds, and the later
    decision, its time and its decider replace the earlier ones. *)
Theorem tracker_later_decision_wins (i w r t1 t2 : string) s a
    (Hsome : get_approval i s = Some a) :
  reject i r t2 (snd (approve i w t1 s))
    = (true, snd (reject i r t2 (snd (approve i w t1 s)))) /\
  get_approval i (snd (reject i r t2 (snd (approve i w t1 s))))
    = Some {| id := id a; invoice_data := invoice_data a; status := "rejected";
              created_at := created_at a; decided_at := Some t2;
              decided_by := Some r |} /\
  approve i w t2 (snd (reject i r t1 s))
    = (true, snd (approve i w t2 (snd (reject i r t1 s)))) /\
  get_approval i (snd (approve i w t2 (snd (reject i r t1 s))))
    = Some {| id := id a; invoice_data := invoice_data a; status := "approved";
              created_at := created_at a; decided_at := Some t2;
              decided_by := Some w |}.
Proof.
  unfold get_approval in *; unfold reject, approve.
  rewrite Hsome; cbn [snd]; rewrite !lookup_insert_eq; cbn [snd].
  repeat split; apply lookup_insert_eq.
Qed.

(** On every store the tracker can reach, the records of [list_all] have
    distinct ids, each is stored under its own id, and each is either
    pending with no decision time and no decider, or approved or rejected
    with both set. *)
Theorem reachable_store_invariant s (Hr : reachable s) :
  NoDup (map id (list_all s)) /\
  (forall k a, get_approval k s = Some a -> id a = k) /\
  Forall (fun a => (status a = "pending" /\ decided_at a = None /\ decided_by a = None)
                   \/ ((status a = "approved" \/ status a = "rejected")
                       /\ decided_at a <> None /\ decided_by a <> None))
         (list_all s).
Proof.
  destruct (reachable_records_ok _ s Hr) as [HF HN].
  unfold list_all, get_approval; split; [|split].
  - rewrite map_map.
    replace (map (fun x => id (snd x)) s) with (map fst s); [exact HN|].
    apply map_ext_in; intros p Hp.
    rewrite Forall_forall in HF; exact (proj1 (HF p Hp)).
  - intros k a Hk; symmetry; exact (proj1 (lookup_key _ _ _ _ _ HF Hk)).
  - apply Forall_map; eapply Forall_impl; [|exact HF].
    intros p [_ H]; exact H.
Qed.

End TrackerProps.

Local Abbreviation sample_record :=
  ({| id := "a1"; invoice_data := 7%nat; status := "approved"; created_at := "t0";
      decided_at := Some "t1"; decided_by := Some "user" |} : Approval nat) (only parsing).

Lemma create_approval_new_id_witness :
  get_approval "a2" [("a1", sample_record)] = None /\
  get_approval "a2" (snd (create_approval "a2" "t2" 8%nat [("a1", sample_record)]))
    = Some {| id := "a2"; invoice_data := 8%nat; status := "pending"; created_at := "t2";
              decided_at := None; decided_by := None |}.
Proof.
  split; [reflexivity|].
  exact (proj1 (proj2 (create_approval_new_id nat "a2" "t2" 8%nat
                         [("a1", sample_record)] eq_refl))).
Defined.

Lemma approve_known_id_witness :
  get_approval "a1" [("a1", sample_record)] = Some sample_record /\
  fst (approve "a1" "boss" "t3" [("a1", sample_record)]) = true.
Proof.
  split; [reflexivity|].
  exact (proj1 (approve_known_id nat "a1" "boss" "t3" [("a1", sample_record)]
                  sample_record eq_refl)).
Defined.

Lemma reject_known_id_witness :
  get_approval "a1" [("a1", sample_record)] = Some sample_record /\
  fst (reject "a1" "boss" "t3" [("a1", sample_record)]) = true.
Proof.
  split; [reflexivity|].
  exact (proj1 (reject_known_id nat "a1" "boss" "t3" [("a1", sample_record)]
                  sample_record eq_refl)).
Defined.

Lemma tracker_later_decision_wins_witness :
  get_approval "a1" [("a1", sample_record)] = Some sample_record /\
  option_map status
    (get_approval "a1" (snd (reject "a1" "boss" "t3"
                               (snd (approve "a1" "user" "t2" [("a1", sample_record)])))))
    = Some "rejected".
Proof.
  split; [reflexivity|].
  rewrite (proj1 (proj2 (tracker_later_decision_wins nat "a1" "user" "boss" "t2" "t3"
                           [("a1", sample_record)] sample_record eq_refl))).
  reflexivity.
Defined.

Lemma reachable_store_invariant_witness :
  let s := snd (approve "a1" "user" "t1" (snd (create_approval "a1" "t0" 7%nat []))) in
  reachable s /\ NoDup (map id (list_all s)).
Proof.
  cbv zeta.
  assert (Hr : reachable (snd (approve "a1" "user" "t1"
                                 (snd (create_approval "a1" "t0" 7%nat []))))).
  { apply reach_approve, reach_create, reach_init. }
  split; [exact Hr|].
  exact (proj1 (reachable_store_invariant nat _ Hr)).
Defined.

End TrackerProps.

(** * Facts about the approval endpoints *)

Module RouterFacts.

Import ApprovalsMem TrackerFacts InvoiceRouter.

Section RouterFacts.

Variable D : Type.

Implicit Types (s : store D) (a : Approval D).

Lemma handle_frame (c : handler_call) (j : string) s :
  (match c with call_approve i _ | call_reject i _ => i end) <> j ->
  lookup j (handle c s) = lookup j s.
Proof.
  destruct c as [i t|i t]; cbn; intros Hne;
    unfold approve_invoice, reject_invoice, get_approval;
    destruct (lookup i s) as [b|]; cbn; try reflexivity;
    destruct (negb (String.eqb (status b) "pending")); try reflexivity.
  - destruct (approve i "user" t s) as [ok s'] eqn:E; cbn.
    rewrite <- (approve_frame D i j "user" t s Hne), E; reflexivity.
  - destruct (reject i "user" t s) as [ok s'] eqn:E; cbn.
    rewrite <- (reject_frame D i j "user" t s Hne), E; reflexivity.
Qed.

Lemma handle_keeps_decided (c : handler_call) (i : string) s a :
  lookup i s = Some a -> status a <> "pending" -> lookup i (handle c s) = Some a.
Proof.
  intros Hs Hst.
  destruct (String.eqb_spec (match c with call_approve j _ | call_reject j _ => j end) i)
    as [Heq|Hne]; [|rewrite handle_frame by exact Hne; exact Hs].
  destruct c as [j t|j t]; cbn in Heq; subst j; cbn;
    unfold approve_invoice, reject_invoice, get_approval; rewrite Hs;
    destruct (String.eqb_spec (status a) "pending"); cbn; congruence.
Qed.

Lemma run_handlers_keeps_decided (calls : list handler_call) (i : string) s a :
  lookup i s = Some a -> status a <> "pending" -> lookup i (run_handlers calls s) = Some a.
Proof.
  revert s; induction calls as [|c calls IH]; intros s Hs Hst; cbn; [exact Hs|].
  apply IH; [apply handle_keeps_decided|]; assumption.
Qed.

Lemma insert_app_absent (k : string) (v w : Approval D) s :
  lookup k s = None -> insert k v (app s [(k, w)]) = app s [(k, v)].
Proof.
  induction s as [|[k' b] s IH]; cbn; intros H.
  - now destruct (String.eqb_spec k k).
  - destruct (String.eqb k k'); [discriminate|now rewrite IH].
Qed.

Lemma lookup_app_absent (k : string) (w : Approval D) s :
  lookup k s = None -> lookup k (app s [(k, w)]) = Some w.
Proof.
  induction s as [|[k' b] s IH]; cbn; intros H.
  - now destruct (String.eqb_spec k k).
  - destruct (String.eqb k k'); [discriminate|now apply IH].
Qed.

Lemma ltb_asym (x y : string) : String.ltb x y = true -> String.ltb y x = false.
Proof.
  unfold String.ltb; rewrite (String.compare_antisym y x).
  destruct (String.compare x y); cbn; congruence.
Qed.

Definition keyed (e : approved_entry D) : Prop := approved_at e <> None.

Lemma insert_desc_head (x : approved_entry D) ys l :
  insert_desc x ys = Some l ->
  (exists rest, l = x :: rest) \/ (exists z zs rest, ys = z :: zs /\ l = z :: rest).
Proof.
  destruct ys as [|y ys]; cbn.
  - intros H; inversion H; left; eauto.
  - destruct (approved_at x), (approved_at y); try discriminate.
    destruct (String.ltb _ _).
    + intros H; inversion H; left; eauto.
    + destruct (insert_desc x ys) as [r|]; cbn; [|discriminate].
      intros H; inversion H; right; eauto.
Qed.

Lemma insert_desc_spec (x : approved_entry D) l :
  keyed x -> Forall keyed l -> Sorted desc_ok l ->
  exists l', insert_desc x l = Some l' /\ Permutation l' (x :: l) /\ Sorted desc_ok l'.
Proof.
  unfold keyed; intros Hx; induction l as [|y ys IH]; intros Hl Hs; cbn.
  - exists [x]; split; [reflexivity|split; [reflexivity|repeat constructor]].
  - inversion Hl as [|? ? Hy Hys]; subst.
    destruct (approved_at x) as [kx|] eqn:Ex; [|congruence].
    destruct (approved_at y) as [ky|] eqn:Ey; [|congruence].
    destruct (String.ltb ky kx) eqn:Elt.
    + exists (x :: y :: ys); split; [reflexivity|split; [reflexivity|]].
      constructor; [exact Hs|constructor].
      unfold desc_ok; rewrite Ex, Ey; now apply ltb_asym.
    + apply Sorted_inv in Hs as [Hs Hhd].
      destruct (IH Hys Hs) as [l'' [Hi [Hp Hs'']]].
      rewrite Hi; cbn.
      exists (y :: l''); split; [reflexivity|split].
      * rewrite Hp; apply perm_swap.
      * constructor; [exact Hs''|].
        destruct (insert_desc_head x ys l'' Hi) as [[rest ->]|[z [zs [rest [-> ->]]]]].
        -- constructor; unfold desc_ok; rewrite Ey, Ex; exact Elt.
        -- inversion Hhd; subst; constructor; assumption.
Qed.

Lemma sort_desc_fold (xs acc : list (approved_entry D)) :
  Forall keyed xs -> Forall keyed acc -> Sorted desc_ok acc ->
  exists l,
    fold_left (fun acc x => match acc with
                            | Some sorted => insert_desc x sorted
                            | None => None
                            end) xs (Some acc) = Some l /\
    Permutation l (app xs acc) /\ Sorted desc_ok l.
Proof.
  revert acc; induction xs as [|x xs IH]; intros acc Hxs Hacc Hs; cbn.
  - exists acc; split; [reflexivity|split; [reflexivity|exact Hs]].
  - inversion Hxs as [|? ? Hx Hxs']; subst.
    destruct (insert_desc_spec x acc Hx Hacc Hs) as [l' [Hi [Hp Hs']]].
    rewrite Hi.
    assert (Hk : Forall keyed l').
    { eapply Permutation_Forall; [symmetry; exact Hp|constructor; assumption]. }
    destruct (IH l' Hxs' Hk Hs') as [l [Hf [Hp' Hs'']]].
    exists l; split; [exact Hf|split; [|exact Hs'']].
    rewrite Hp', Hp; symmetry; apply Permutation_middle.
Qed.

Lemma sort_desc_spec (xs : list (approved_entry D)) :
  Forall keyed xs ->
  exists l, sort_desc xs = Some l /\ Permutation l xs /\ Sorted desc_ok l.
Proof.
  intros Hxs; unfold sort_desc.
  destruct (sort_desc_fold xs [] Hxs (Forall_nil _) (Sorted_nil _)) as [l [H1 [H2 H3]]].
  exists l; split; [exact H1|split; [rewrite H2, app_nil_r; reflexivity|exact H3]].
Qed.

Lemma to_entry_label (a : Approval D) :
  approval_type (to_entry a) = "AI Auto-Approved" <->
  approved_by (to_entry a) = Some "system-auto".
Proof.
  unfold to_entry; cbn.
  destruct (decided_by a) as [who|]; [|split; discriminate].
  destruct (String.eqb_spec who "system-auto") as [->|Hne]; [tauto|].
  split; [discriminate|congruence].
Qed.

Lemma list_approved_spec s :
  Forall record_ok s ->
  exists entries,
    list_approved_invoices s = Some (length entries, entries) /\
    Permutation entries
      (map to_entry (filter (fun a => String.eqb (status a) "approved") (list_all s))) /\
    Sorted desc_ok entries.
Proof.
  intros HF; unfold list_approved_invoices.
  assert (Hk : Forall keyed
                 (map to_entry (filter (fun a => String.eqb (status a) "approved")
                                  (list_all s)))).
  { apply Forall_forall; intros e He.
    apply in_map_iff in He as [a [<- Ha]].
    apply filter_In in Ha as [Ha Hst].
    apply in_map_iff in Ha as [[k a'] [Heq Hin]]; cbn in Heq; subst a'.
    rewrite Forall_forall in HF.
    destruct (HF _ Hin) as [_ [[Hp _]|[_ [Hd _]]]]; cbn in *.
    - rewrite Hp in Hst; discriminate.
    - exact Hd. }
  destruct (sort_desc_spec _ Hk) as [l [H1 [H2 H3]]].
  rewrite H1; exists l; auto.
Qed.

Lemma reachable_process_invoice {CardResult : Type}
    (post_approval_card : D -> string -> CardResult + string)
    (confidence confidence_threshold : float) (d : D)
    (new_id now_created now_decided : string) s :
  reachable s ->
  reachable (snd (process_invoice post_approval_card confidence confidence_threshold d
                    new_id now_created now_decided s)).
Proof.
  intros Hr; unfold process_invoice.
  pose proof (reach_create _ s new_id now_created d Hr) as H1.
  destruct (create_approval new_id now_created d s) as [aid s1]; cbn in H1.
  destruct (PrimFloat.leb confidence_threshold confidence);
    [|destruct (post_approval_card d aid); exact H1].
  pose proof (reach_approve _ s1 aid "system-auto" now_decided H1) as H2.
  destruct (approve aid "system-auto" now_decided s1) as [ok s2]; exact H2.
Qed.

End RouterFacts.

End RouterFacts.

(** * Properties of the approval endpoints *)

Module RouterProps.

Import ApprovalsMem TrackerFacts InvoiceRouter RouterFacts.

Section RouterProps.

Variable D : Type.

Implicit Types (s : store D) (a : Approval D).

Lemma process_invoice_store {CardResult : Type}
    (post_approval_card : D -> string -> CardResult + string)
    (confidence confidence_threshold : float) (d : D)
    (new_id now_created now_decided : string) s :
  get_approval new_id s = None ->
  process_invoice post_approval_card confidence confidence_threshold d
    new_id now_created now_decided s =
  if PrimFloat.leb confidence_threshold confidence then
    (Ok (AutoApproved confidence new_id d),
     app s [(new_id, {| id := new_id; invoice_data := d; status := "approved";
                        created_at := now_created; decided_at := Some now_decided;
                        decided_by := Some "system-auto" |})])
  else
    (match post_approval_card d new_id with
     | inl result => Ok (PendingApproval confidence new_id d result)
     | inr e => HTTPException 400 e
     end,
     app s [(new_id, {| id := new_id; invoice_data := d; status := "pending";
                        created_at := now_created; decided_at := None;
                        decided_by := None |})]).
Proof.
  unfold get_approval; intros Hfresh.
  unfold process_invoice, create_approval.
  rewrite (insert_absent D _ _ _ Hfresh).
  destruct (PrimFloat.leb confidence_threshold confidence);
    [|destruct (post_approval_card d new_id); reflexivity].
  unfold approve; rewrite (lookup_app_absent D _ _ _ Hfresh); cbn.
  now rewrite (insert_app_absent D _ _ _ _ Hfresh).
Qed.

(** On a pending record, the approve endpoint shows the record's invoice
    data and records the decision with [approve(approval_id)], so with the
    default approver "user"; the reject endpoint likewise with
    [reject(approval_id)]. *)
Theorem pending_record_decided_by_user (i now : string) s a
    (Hsome : get_approval i s = Some a) (Hst : status a = "pending") :
  approve_invoice i now s = (Ok (InvoiceApproved (invoice_data a)), snd (approve i "user" now s)) /\
  get_approval i (snd (approve_invoice i now s))
    = Some {| id := id a; invoice_data := invoice_data a; status := "approved";
              created_at := created_at a; decided_at := Some now;
              decided_by := Some "user" |} /\
  reject_invoice i now s = (Ok (InvoiceRejected (invoice_data a)), snd (reject i "user" now s)) /\
  get_approval i (snd (reject_invoice i now s))
    = Some {| id := id a; invoice_data := invoice_data a; status := "rejected";
              created_at := created_at a; decided_at := Some now;
              decided_by := Some "user" |}.
Proof.
  unfold approve_invoice, reject_invoice, get_approval in *; rewrite Hsome.
  cbv beta iota; rewrite Hst; cbn -[approve reject].
  unfold approve, reject; rewrite Hsome; cbn [fst snd].
  repeat split; apply lookup_insert_eq.
Qed.

(** Through the endpoints, a decided record is final: whatever sequence
    of approve and reject requests follows, on any ids, the record stays
    exactly as it is. *)
Theorem decided_record_final (calls : list handler_call) (i : string) s a
    (Hsome : get_approval i s = Some a) (Hst : status a <> "pending") :
  get_approval i (run_handlers calls s) = Some a.
Proof.
  exact (run_handlers_keeps_decided D calls i s a Hsome Hst).
Qed.

(** The first decision request on a pending record wins: after it, any
    further requests leave the record approved (or rejected) by "user" at
    the time of that first request. *)
Theorem first_decision_final (calls : list handler_call) (i t : string) s a
    (Hsome : get_approval i s = Some a) (Hst : status a = "pending") :
  get_approval i (run_handlers (call_approve i t :: calls) s)
    = Some {| id := id a; invoice_data := invoice_data a; status := "approved";
              created_at := created_at a; decided_at := Some t;
              decided_by := Some "user" |} /\
  get_approval i (run_handlers (call_reject i t :: calls) s)
    = Some {| id := id a; invoice_data := invoice_data a; status := "rejected";
              created_at := created_at a; decided_at := Some t;
              decided_by := Some "user" |}.
Proof.
  unfold get_approval in *; split;
    [apply (run_handlers_keeps_decided D calls i (handle (call_approve i t) s))
    |apply (run_handlers_keeps_decided D calls i (handle (call_reject i t) s))];
    try discriminate;
    unfold handle, approve_invoice, reject_invoice, get_approval; rewrite Hsome;
    cbv beta iota; rewrite Hst; cbn -[approve reject];
    unfold approve, reject; rewrite Hsome; cbn [snd]; apply lookup_insert_eq.
Qed.

(** [POST /invoices/process] with confidence at or above the threshold
    (the comparison is [>=], so equality auto-approves) returns
    "auto_approved" and stores one new record, approved by "system-auto",
    created at the creation time and decided at the decision time. *)
Theorem process_invoice_auto_approves {CardResult : Type}
    (post_approval_card : D -> string -> CardResult + string)
    (confidence confidence_threshold : float) (d : D)
    (new_id now_created now_decided : string) s
    (Hge : PrimFloat.leb confidence_threshold confidence = true)
    (Hfresh : get_approval new_id s = None) :
  let r := process_invoice post_approval_card confidence confidence_threshold d
             new_id now_created now_decided s in
  let rec := {| id := new_id; invoice_data := d; status := "approved";
                created_at := now_created; decided_at := Some now_decided;
                decided_by := Some "system-auto" |} in
  fst r = Ok (AutoApproved confidence new_id d) /\
  get_approval new_id (snd r) = Some rec /\
  list_all (snd r) = app (list_all s) [rec].
Proof.
  cbv zeta; rewrite (process_invoice_store _ _ _ _ _ _ _ _ Hfresh), Hge; cbn [fst snd].
  unfold get_approval, list_all in *; rewrite map_app.
  split; [reflexivity|split; [apply lookup_app_absent; exact Hfresh|reflexivity]].
Qed.

(** Otherwise (confidence below the threshold, or NaN) it stores one new
    pending, undecided record and then posts the Teams card for it: the
    answer is "pending_approval" with the card's result, or, when the post
    raises, an [HTTPException] 400 with the error's message; the pending
    record stays stored either way. *)
Theorem process_invoice_low_confidence_pending {CardResult : Type}
    (post_approval_card : D -> string -> CardResult + string)
    (confidence confidence_threshold : float) (d : D)
    (new_id now_created now_decided : string) s
    (Hlt : PrimFloat.leb confidence_threshold confidence = false)
    (Hfresh : get_approval new_id s = None) :
  let r := process_invoice post_approval_card confidence confidence_threshold d
             new_id now_created now_decided s in
  let rec := {| id := new_id; invoice_data := d; status := "pending";
                created_at := now_created; decided_at := None; decided_by := None |} in
  (forall result, post_approval_card d new_id = inl result ->
   fst r = Ok (PendingApproval confidence new_id d result)) /\
  (forall e, post_approval_card d new_id = inr e -> fst r = HTTPException 400 e) /\
  get_approval new_id (snd r) = Some rec /\
  list_all (snd r) = app (list_all s) [rec].
Proof.
  cbv zeta; rewrite (process_invoice_store _ _ _ _ _ _ _ _ Hfresh), Hlt; cbn [fst snd].
  unfold get_approval, list_all in *; rewrite map_app.
  split; [intros result ->; reflexivity|split; [intros e ->; reflexivity|]].
  split; [apply lookup_app_absent; exact Hfresh|reflexivity].
Qed.

(** On every reachable store, [GET /invoices/approvals/approved] does not
    raise: it lists exactly the approved records (as a permutation), its
    [total_approved] is their number, the list is ordered by decision time
    with the most recent first, and an entry is labelled "AI Auto-Approved"
    exactly when its approver is "system-auto". *)
Theorem list_approved_invoices_reachable s (Hr : reachable s) :
  exists entries,
    list_approved_invoices s = Some (length entries, entries) /\
    length entries = length (filter (fun a => String.eqb (status a) "approved") (list_all s)) /\
    Permutation entries
      (map to_entry (filter (fun a => String.eqb (status a) "approved") (list_all s))) /\
    Sorted desc_ok entries /\
    Forall (fun e => approval_type e = "AI Auto-Approved" <->
                     approved_by e = Some "system-auto") entries.
Proof.
  destruct (list_approved_spec D s (proj1 (reachable_records_ok D s Hr)))
    as [entries [H1 [H2 H3]]].
  exists entries; split; [exact H1|split; [|split; [exact H2|split; [exact H3|]]]].
  - rewrite (Permutation_length H2); apply length_map.
  - eapply Permutation_Forall; [symmetry; exact H2|].
    apply Forall_map, Forall_forall; intros a _; apply to_entry_label.
Qed.

(** Composition of the two endpoints: an invoice auto-approved by
    [process_invoice] appears in the approved listing as
    "AI Auto-Approved" by "system-auto"; a low-confidence one does not
    appear there at all. *)
Theorem process_invoice_then_listing {CardResult : Type}
    (post_approval_card : D -> string -> CardResult + string)
    (confidence confidence_threshold : float) (d : D)
    (new_id now_created now_decided : string) s
    (Hr : reachable s) (Hfresh : get_approval new_id s = None) :
  let s' := snd (process_invoice post_approval_card confidence confidence_threshold d
                   new_id now_created now_decided s) in
  exists entries,
    list_approved_invoices s' = Some (length entries, entries) /\
    (PrimFloat.leb confidence_threshold confidence = true ->
     In {| entry_approval_id := new_id; entry_invoice := d;
           approval_type := "AI Auto-Approved"; approved_by := Some "system-auto";
           approved_at := Some now_decided; entry_created_at := now_created |} entries) /\
    (PrimFloat.leb confidence_threshold confidence = false ->
     Forall (fun e => entry_approval_id e <> new_id) entries).
Proof.
  cbv zeta.
  pose proof (reachable_process_invoice D post_approval_card confidence
                confidence_threshold d new_id now_created now_decided s Hr) as Hr'.
  destruct (list_approved_spec D _ (proj1 (reachable_records_ok D _ Hr')))
    as [entries [H1 [H2 _]]].
  exists entries; split; [exact H1|].
  pose proof (proj1 (reachable_records_ok D s Hr)) as HF.
  pose proof Hfresh as Hnot; unfold get_approval in Hnot;
    apply lookup_none_not_in in Hnot.
  rewrite (process_invoice_store _ _ _ _ _ _ _ _ Hfresh) in H2.
  split; intros Hb; rewrite Hb in H2; cbn [snd] in H2.
  - eapply Permutation_in; [symmetry; exact H2|].
    unfold list_all; rewrite map_app, filter_app, map_app.
    apply in_or_app; right; cbn; left; reflexivity.
  - eapply Permutation_Forall; [symmetry; exact H2|].
    unfold list_all; rewrite map_app, filter_app, map_app; cbn; rewrite app_nil_r.
    apply Forall_forall; intros e He.
    apply in_map_iff in He as [a [<- Ha]].
    apply filter_In in Ha as [Ha _].
    apply in_map_iff in Ha as [[k a'] [Heq Hin]]; cbn in Heq; subst a'.
    rewrite Forall_forall in HF; destruct (HF _ Hin) as [Hid _]; cbn in Hid.
    cbn; rewrite <- Hid; intros ->; apply Hnot.
    apply in_map_iff; exists (new_id, a); auto.
Qed.

End RouterProps.

Local Abbreviation pending_record :=
  ({| id := "a1"; invoice_data := 7%nat; status := "pending"; created_at := "t0";
      decided_at := None; decided_by := None |} : Approval nat) (only parsing).

Local Abbreviation approved_record :=
  ({| id := "a1"; invoice_data := 7%nat; status := "approved"; created_at := "t0";
      decided_at := Some "t1"; decided_by := Some "user" |} : Approval nat) (only parsing).

Lemma pending_record_decided_by_user_witness :
  get_approval "a1" [("a1", pending_record)] = Some pending_record /\
  approve_invoice "a1" "t2" [("a1", pending_record)]
    = (Ok (InvoiceApproved 7%nat), snd (approve "a1" "user" "t2" [("a1", pending_record)])).
Proof.
  split; [reflexivity|].
  exact (proj1 (pending_record_decided_by_user nat "a1" "t2" [("a1", pending_record)]
                  pending_record eq_refl eq_refl)).
Defined.

Lemma decided_record_final_witness :
  get_approval "a1" [("a1", approved_record)] = Some approved_record /\
  get_approval "a1" (run_handlers [call_reject "a1" "t2"; call_approve "a1" "t3"]
                       [("a1", approved_record)]) = Some approved_record.
Proof.
  split; [reflexivity|].
  exact (decided_record_final nat [call_reject "a1" "t2"; call_approve "a1" "t3"] "a1"
           [("a1", approved_record)] approved_record eq_refl ltac:(discriminate)).
Defined.

Lemma first_decision_final_witness :
  get_approval "a1" [("a1", pending_record)] = Some pending_record /\
  option_map status
    (get_approval "a1" (run_handlers [call_approve "a1" "t2"; call_reject "a1" "t3"]
                          [("a1", pending_record)])) = Some "approved".
Proof.
  split; [reflexivity|].
  rewrite (proj1 (first_decision_final nat [call_reject "a1" "t3"] "a1" "t2"
                    [("a1", pending_record)] pending_record eq_refl eq_refl)).
  reflexivity.
Defined.

Lemma process_invoice_auto_approves_witness :
  PrimFloat.leb 0.85%float 0.85%float = true /\
  fst (process_invoice (fun (_ : nat) (_ : string) => @inl string string "posted") 0.85%float 0.85%float 7%nat
         "a2" "t0" "t1" [("a1", pending_record)]) = Ok (AutoApproved 0.85%float "a2" 7%nat).
Proof.
  split; [reflexivity|].
  exact (proj1 (process_invoice_auto_approves nat (fun (_ : nat) (_ : string) => @inl string string "posted")
                  0.85%float 0.85%float 7%nat "a2" "t0" "t1" [("a1", pending_record)]
                  eq_refl eq_refl)).
Defined.

Lemma process_invoice_low_confidence_pending_witness :
  PrimFloat.leb 0.85%float PrimFloat.nan = false /\
  get_approval "a2" [("a1", pending_record)] = None /\
  fst (process_invoice (fun (_ : nat) (_ : string) => @inr string string "ConnectError")
         PrimFloat.nan 0.85%float 7%nat "a2" "t0" "t1" [("a1", pending_record)])
    = HTTPException 400 "ConnectError".
Proof.
  split; [reflexivity|split; [reflexivity|]].
  exact (proj1 (proj2 (process_invoice_low_confidence_pending nat
                         (fun (_ : nat) (_ : string) => @inr string string "ConnectError")
                         PrimFloat.nan 0.85%float 7%nat "a2" "t0" "t1"
                         [("a1", pending_record)] eq_refl eq_refl)) "ConnectError" eq_refl).
Defined.

Lemma list_approved_invoices_reachable_witness :
  let s := snd (approve "a1" "user" "t1" (snd (create_approval "a1" "t0" 7%nat []))) in
  reachable s /\
  exists entries, list_approved_invoices s = Some (length entries, entries).
Proof.
  cbv zeta.
  assert (Hr : reachable (snd (approve "a1" "user" "t1"
                                 (snd (create_approval "a1" "t0" 7%nat []))))).
  { apply reach_approve, reach_create, reach_init. }
  split; [exact Hr|].
  destruct (list_approved_invoices_reachable nat _ Hr) as [e [H _]].
  exists e; exact H.
Defined.

Lemma process_invoice_then_listing_witness :
  let s := snd (create_approval "a1" "t0" 7%nat []) in
  reachable s /\ get_approval "a2" s = None /\
  exists entries,
    list_approved_invoices
      (snd (process_invoice (fun (_ : nat) (_ : string) => @inl string string "posted") 0.9%float 0.85%float
              7%nat "a2" "t1" "t2" s)) = Some (length entries, entries).
Proof.
  cbv zeta.
  assert (Hr : reachable (snd (create_approval "a1" "t0" 7%nat []))).
  { apply reach_create, reach_init. }
  split; [exact Hr|split; [reflexivity|]].
  destruct (process_invoice_then_listing nat (fun (_ : nat) (_ : string) => @inl string string "posted")
              0.9%float 0.85%float 7%nat "a2" "t1" "t2" _ Hr eq_refl) as [e [H _]].
  exists e; exact H.
Defined.

End RouterProps.

(** * Facts about [split], [strip] and [replace] *)

Module PyStrFacts.

Import PyStrMethods.

Lemma lstrip_head (s : string) :
  lstrip s = "" \/ exists c r, lstrip s = String c r /\ py_isspace c = false.
Proof.
  induction s as [|c s IH]; cbn; [now left|].
  destruct (py_isspace c) eqn:E; [exact IH|right; eauto].
Qed.

Lemma lstrip_nonspace (c : ascii) (r : string) :
  py_isspace c = false -> lstrip (String c r) = String c r.
Proof. intros H; cbn; now rewrite H. Qed.

Lemma rstrip_nonspace_head (c : ascii) (s : string) :
  py_isspace c = false -> exists r, rstrip (String c s) = String c r.
Proof.
  intros H; cbn; destruct (rstrip s); [rewrite H|]; eauto.
Qed.

Lemma rstrip_idem (s : string) : rstrip (rstrip s) = rstrip s.
Proof.
  induction s as [|c s IH]; [reflexivity|].
  cbn [rstrip]; destruct (rstrip s) as [|c2 r2] eqn:E.
  - destruct (py_isspace c) eqn:Hc; [reflexivity|cbn; now rewrite Hc].
  -
    change (match rstrip (String c2 r2) with
            | EmptyString => if py_isspace c then EmptyString else String c EmptyString
            | _ => String c (rstrip (String c2 r2))
            end = String c (String c2 r2)).
    rewrite IH; reflexivity.
Qed.

Lemma strip_idem (s : string) : strip (strip s) = strip s.
Proof.
  unfold strip; destruct (lstrip_head s) as [->|[c [r [-> Hc]]]]; [reflexivity|].
  destruct (rstrip_nonspace_head c r Hc) as [r' Hr]; rewrite Hr.
  rewrite lstrip_nonspace by exact Hc; rewrite <- Hr; apply rstrip_idem.
Qed.

Lemma lstrip_chars (s : string) x : In x (list_ascii_of_string (lstrip s)) -> In x (list_ascii_of_string s).
Proof.
  induction s as [|c s IH]; cbn; [tauto|].
  destruct (py_isspace c); cbn; auto.
Qed.

Lemma rstrip_chars (s : string) x : In x (list_ascii_of_string (rstrip s)) -> In x (list_ascii_of_string s).
Proof.
  induction s as [|c s IH]; cbn; [tauto|].
  destruct (rstrip s) eqn:E.
  - destruct (py_isspace c); cbn; tauto.
  - cbn; intros [H|H]; [now left|right; apply IH; exact H].
Qed.

Lemma strip_chars (s : string) x : In x (list_ascii_of_string (strip s)) -> In x (list_ascii_of_string s).
Proof. intros H; apply lstrip_chars, rstrip_chars, H. Qed.

Lemma lstrip_all_space (s : string) :
  Forall (fun c => py_isspace c = true) (list_ascii_of_string s) -> lstrip s = "".
Proof.
  induction s as [|c s IH]; cbn; intros H; [reflexivity|].
  inversion H; subst; rewrite H2; auto.
Qed.

Lemma split_pieces (sep : ascii) (s : string) p :
  In p (split sep s) ->
  ~ In sep (list_ascii_of_string p) /\ (forall x, In x (list_ascii_of_string p) -> In x (list_ascii_of_string s)).
Proof.
  revert p; induction s as [|c s IH]; intros p; cbn.
  - intros [<-|[]]; cbn; tauto.
  - destruct (Ascii.eqb_spec c sep) as [->|Hne].
    + intros [<-|Hp]; [cbn; tauto|].
      destruct (IH p Hp) as [H1 H2]; split; [exact H1|intros x Hx; right; auto].
    + destruct (split sep s) as [|piece rest] eqn:E.
      * intros [<-|[]]; cbn; split; [intros [H|[]]; congruence|].
        intros x [<-|[]]; now left.
      * intros [<-|Hp].
        -- destruct (IH piece (or_introl eq_refl)) as [H1 H2]; cbn; split.
           ++ intros [H|H]; [congruence|tauto].
           ++ intros x [<-|Hx]; [now left|right; auto].
        -- destruct (IH p (or_intror Hp)) as [H1 H2]; split; [exact H1|].
           intros x Hx; right; auto.
Qed.

Lemma substring_chars (n m : nat) (s : string) x :
  In x (list_ascii_of_string (substring n m s)) -> In x (list_ascii_of_string s).
Proof.
  revert n m; induction s as [|c s IH]; intros n m; cbn.
  - destruct n, m; cbn; tauto.
  - destruct n as [|n]; [destruct m as [|m]; cbn; [tauto|]|].
    + intros [<-|H]; [now left|right].
      (* [substring 0 m s] is [substring 0 m] of the tail *)
      exact (IH 0%nat m H).
    + intros H; right; exact (IH n m H).
Qed.

Lemma remove_fuel_chars (fuel : nat) (old s : string) x :
  In x (list_ascii_of_string (remove_fuel fuel old s)) -> In x (list_ascii_of_string s).
Proof.
  revert s; induction fuel as [|fuel IH]; intros s; cbn; [tauto|].
  destruct s as [|c s]; [tauto|].
  destruct (String.prefix old (String c s)).
  - intros H; apply IH in H; eapply substring_chars; exact H.
  - cbn; intros [<-|H]; [now left|right; apply IH, H].
Qed.

Lemma replace_empty_chars (old s : string) x :
  In x (list_ascii_of_string (replace_empty old s)) -> In x (list_ascii_of_string s).
Proof.
  unfold replace_empty; destruct old; [tauto|apply remove_fuel_chars].
Qed.

Lemma substring_0_long (m : nat) (s : string) :
  (String.length s <= m)%nat -> substring 0 m s = s.
Proof.
  revert m; induction s as [|c s IH]; intros m Hm; destruct m as [|m]; cbn in *;
    try reflexivity; try lia.
  rewrite IH by lia; reflexivity.
Qed.

Lemma remove_char_absent (fuel : nat) (c : ascii) (s : string) :
  (String.length s <= fuel)%nat -> ~ In c (list_ascii_of_string (remove_fuel fuel (String c "") s)).
Proof.
  revert s; induction fuel as [|fuel IH]; intros s Hl; cbn.
  - destruct s; cbn in *; [tauto|lia].
  - destruct s as [|c' s]; [cbn; tauto|].
    cbn in Hl.
    destruct (String.prefix (String c "") (String c' s)) eqn:E.
    + cbn [String.length]; cbn in E.
      destruct (ascii_dec c c'); [subst|discriminate].
      cbn [substring]; rewrite substring_0_long by lia; apply IH; lia.
    + cbn; intros [Heq|H]; [|revert H; apply IH; lia].
      subst c'; cbn in E; destruct (ascii_dec c c) as [_|]; [|congruence].
      destruct s; cbn in E; discriminate.
Qed.

Lemma replace_char_absent (c : ascii) (s : string) :
  ~ In c (list_ascii_of_string (replace_empty (String c "") s)).
Proof. apply remove_char_absent; lia. Qed.

Lemma remove_fuel_no_match (fuel : nat) (old s : string) :
  contains old s = false -> remove_fuel fuel old s = s.
Proof.
  revert s; induction fuel as [|fuel IH]; intros s H; cbn [remove_fuel]; [reflexivity|].
  destruct s as [|c s]; [reflexivity|].
  change ((if String.prefix old (String c s) then true else contains old s) = false) in H.
  destruct (String.prefix old (String c s)); [discriminate|].
  now rewrite IH.
Qed.

Lemma replace_empty_no_match (old s : string) :
  contains old s = false -> replace_empty old s = s.
Proof.
  unfold replace_empty; destruct old; [reflexivity|apply remove_fuel_no_match].
Qed.

End PyStrFacts.

(** * Properties of [create_approval_rules] and of the total cleaning *)

Module FactoryProps.

Import PyStrMethods PyStrFacts RulesFactory FormRecognizer.

Lemma parse_bill_to_names_clean (bill_to_env : string) :
  Forall (fun n => n <> "" /\ strip n = n /\ ~ In ","%char (list_ascii_of_string n))
         (parse_bill_to_names bill_to_env).
Proof.
  unfold parse_bill_to_names; apply Forall_map, Forall_forall.
  intros x Hx; apply filter_In in Hx as [Hin Ht].
  split; [|split].
  - destruct (strip x); [discriminate|discriminate].
  - apply strip_idem.
  - intros H; apply strip_chars in H.
    exact (proj1 (split_pieces _ _ _ Hin) H).
Qed.

Lemma filter_all_false {A : Type} (f : A -> bool) (l : list A) :
  (forall x, In x l -> f x = false) -> filter f l = [].
Proof.
  induction l as [|x l IH]; cbn; intros H; [reflexivity|].
  rewrite (H x (or_introl eq_refl)); apply IH; auto.
Qed.

Lemma fold_replace_chars (codes : list string) (t : string) x :
  In x (list_ascii_of_string (fold_left (fun acc curr_code => replace_empty curr_code acc) codes t)) ->
  In x (list_ascii_of_string t).
Proof.
  revert t; induction codes as [|code codes IH]; intros t; cbn; [tauto|].
  intros H; apply IH in H; eapply replace_empty_chars; exact H.
Qed.

Section Evaluated.

Variable fmt_2f : float -> string.
Variable fmt_pct1 : float -> string.

Lemma contains_lower_empty (n : string) : n <> "" -> contains (lower n) "" = false.
Proof. destruct n; [congruence|reflexivity]. Qed.

(** Without an empty entry in the whitelist, the bill-to check follows the
    substring rule also for an empty [bill_to]. *)
Lemma bill_to_check_no_empty_entry (config : ApprovalRulesConfig)
    (amount confidence : float) (content vendor bill_to : option string) :
  Forall (fun n => n <> "") (allowed_bill_to_names config) ->
  let d := evaluate fmt_2f fmt_pct1 config amount confidence content vendor bill_to in
  (allowed_bill_to_names config = [] ->
   dict_get "bill_to_authorized" (checks d) = Some true) /\
  (allowed_bill_to_names config <> [] ->
   (bill_to = None -> dict_get "bill_to_authorized" (checks d) = Some false) /\
   (forall b, bill_to = Some b ->
    dict_get "bill_to_authorized" (checks d)
      = Some (existsb (fun allowed => contains (lower allowed) (lower b))
                      (allowed_bill_to_names config)))).
Proof.
  intros Hne; cbv zeta; unfold evaluate.
  revert Hne; destruct (allowed_bill_to_names config) as [|h t]; intros Hne;
    cbn -[append classify_document_type contains lower].
  - split; [reflexivity|]; intros H; congruence.
  - split; [discriminate|]; intros _; split.
    + intros ->; reflexivity.
    + intros b ->; destruct b as [|c b].
      * assert (E : existsb (fun allowed => contains (lower allowed) (lower "")) (h :: t)
                    = false).
        { destruct (existsb _ (h :: t)) eqn:E; [|reflexivity].
          apply existsb_exists in E as [x [Hx Hc]].
          rewrite Forall_forall in Hne; change (lower "") with "" in Hc.
          rewrite (contains_lower_empty x (Hne x Hx)) in Hc; discriminate. }
        cbn -[append classify_document_type contains lower].
        cbn [existsb] in E; rewrite E; reflexivity.
      * cbn -[append contains lower].
        destruct (existsb _ _); reflexivity.
Qed.

(** For a configuration whose whitelist comes from the
    [APPROVAL_ALLOWED_BILL_TO_NAMES] setting (no [allowed_bill_to_names]
    argument), the bill-to check is exactly: passed when the list is empty;
    otherwise failed for an absent [bill_to], and for a present one passed
    iff some entry, lowered, is a substring of it lowered. This holds even
    for [bill_to = ""], since parsing never yields an empty entry. *)
Theorem env_whitelist_bill_to_check (settings : Settings)
    (amount_threshold min_confidence : option float)
    (require_invoice_keyword reject_receipt_keyword : option bool)
    (amount confidence : float) (content vendor bill_to : option string) :
  let config := create_approval_rules settings amount_threshold min_confidence
                  require_invoice_keyword reject_receipt_keyword None in
  let d := evaluate fmt_2f fmt_pct1 config amount confidence content vendor bill_to in
  (allowed_bill_to_names config = [] ->
   dict_get "bill_to_authorized" (checks d) = Some true) /\
  (allowed_bill_to_names config <> [] ->
   (bill_to = None -> dict_get "bill_to_authorized" (checks d) = Some false) /\
   (forall b, bill_to = Some b ->
    dict_get "bill_to_authorized" (checks d)
      = Some (existsb (fun allowed => contains (lower allowed) (lower b))
                      (allowed_bill_to_names config)))).
Proof.
  cbv zeta; apply bill_to_check_no_empty_entry.
  unfold create_approval_rules; cbv beta iota zeta; cbn [allowed_bill_to_names].
  destruct (truthy (Some (approval_allowed_bill_to_names settings))); [|constructor].
  eapply Forall_impl; [|apply parse_bill_to_names_clean]; cbn; tauto.
Qed.

(** A setting made only of commas and whitespace yields an empty
    whitelist, and with it a bill-to check that passes on every input. *)
Theorem separator_only_setting_disables_whitelist (settings : Settings)
    (amount_threshold min_confidence : option float)
    (require_invoice_keyword reject_receipt_keyword : option bool)
    (Hsep : Forall (fun c => c = ","%char \/ py_isspace c = true)
                   (list_ascii_of_string (approval_allowed_bill_to_names settings))) :
  let config := create_approval_rules settings amount_threshold min_confidence
                  require_invoice_keyword reject_receipt_keyword None in
  allowed_bill_to_names config = [] /\
  (forall amount confidence content vendor bill_to,
   dict_get "bill_to_authorized"
     (checks (evaluate fmt_2f fmt_pct1 config amount confidence content vendor bill_to))
   = Some true).
Proof.
  cbv zeta.
  assert (Hnil : allowed_bill_to_names
                   (create_approval_rules settings amount_threshold min_confidence
                      require_invoice_keyword reject_receipt_keyword None) = []).
  { unfold create_approval_rules; cbv beta iota zeta; cbn [allowed_bill_to_names].
    destruct (truthy (Some (approval_allowed_bill_to_names settings))); [|reflexivity].
    unfold parse_bill_to_names; rewrite filter_all_false; [reflexivity|].
    intros p Hp; destruct (split_pieces _ _ _ Hp) as [Hc Hsub].
    unfold strip; rewrite lstrip_all_space; [reflexivity|].
    apply Forall_forall; intros x Hx.
    rewrite Forall_forall in Hsep; destruct (Hsep x (Hsub x Hx)) as [->|H]; [tauto|exact H]. }
  split; [exact Hnil|].
  intros amount confidence content vendor bill_to; unfold evaluate; rewrite Hnil.
  cbn -[append classify_document_type contains lower]; reflexivity.
Qed.

End Evaluated.

(** Every name [create_approval_rules] parses from the setting is
    non-empty, already stripped of surrounding whitespace, and contains no
    comma. *)
Theorem env_bill_to_names_clean (settings : Settings)
    (amount_threshold min_confidence : option float)
    (require_invoice_keyword reject_receipt_keyword : option bool) :
  Forall (fun n => n <> "" /\ strip n = n /\ ~ In ","%char (list_ascii_of_string n))
    (allowed_bill_to_names
       (create_approval_rules settings amount_threshold min_confidence
          require_invoice_keyword reject_receipt_keyword None)).
Proof.
  unfold create_approval_rules; cbv beta iota zeta; cbn [allowed_bill_to_names].
  destruct (truthy (Some (approval_allowed_bill_to_names settings))); [|constructor].
  apply parse_bill_to_names_clean.
Qed.

(** The string handed to [float()] never contains "$" or ",", and has no
    leading or trailing whitespace. *)
Theorem clean_total_str_no_symbols (invoice_total_raw : string) :
  ~ In "$"%char (list_ascii_of_string (clean_total_str invoice_total_raw)) /\
  ~ In ","%char (list_ascii_of_string (clean_total_str invoice_total_raw)) /\
  strip (clean_total_str invoice_total_raw) = clean_total_str invoice_total_raw.
Proof.
  unfold clean_total_str; split; [|split; [|apply strip_idem]];
    intros H; apply strip_chars, fold_replace_chars in H.
  - apply replace_empty_chars in H; revert H; apply replace_char_absent.
  - revert H; apply replace_char_absent.
Qed.

(** A total that is already a bare number text (no "$", no ",", none of the
    seven currency codes, no surrounding whitespace) reaches [float()]
    unchanged. *)
Theorem clean_total_str_plain_unchanged (s : string)
    (Hdollar : contains "$" s = false) (Hcomma : contains "," s = false)
    (Hcodes : forallb (fun code => negb (contains code s))
                ["USD"; "AUD"; "EUR"; "GBP"; "CAD"; "JPY"; "CNY"] = true)
    (Hstrip : strip s = s) :
  clean_total_str s = s.
Proof.
  unfold clean_total_str.
  rewrite (replace_empty_no_match "$" s Hdollar), (replace_empty_no_match "," s Hcomma).
  cbn [forallb] in Hcodes; rewrite !andb_true_iff, !negb_true_iff in Hcodes.
  destruct Hcodes as [H1 [H2 [H3 [H4 [H5 [H6 [H7 _]]]]]]].
  cbn [fold_left].
  rewrite (replace_empty_no_match "USD" s H1), (replace_empty_no_match "AUD" s H2),
    (replace_empty_no_match "EUR" s H3), (replace_empty_no_match "GBP" s H4),
    (replace_empty_no_match "CAD" s H5), (replace_empty_no_match "JPY" s H6),
    (replace_empty_no_match "CNY" s H7).
  exact Hstrip.
Qed.

Local Abbreviation sample_settings :=
  {| approval_amount_threshold := 500.0%float; approval_min_confidence := 0.85%float;
     approval_require_invoice_keyword := true; approval_reject_receipt_keyword := true;
     approval_allowed_bill_to_names := " Acme Corp, Acme Industries ," |} (only parsing).

Lemma env_whitelist_bill_to_check_witness :
  dict_get "bill_to_authorized"
    (checks (evaluate (fun _ => "") (fun _ => "")
               (create_approval_rules sample_settings None None None None None)
               100.0%float 0.9%float None None (Some "")))
  = Some (existsb (fun allowed => contains (lower allowed) (lower ""))
            (allowed_bill_to_names
               (create_approval_rules sample_settings None None None None None))).
Proof.
  exact (proj2 (proj2 (env_whitelist_bill_to_check (fun _ => "") (fun _ => "")
                         sample_settings None None None None
                         100.0%float 0.9%float None None (Some ""))
                  ltac:(discriminate)) "" eq_refl).
Defined.

Lemma separator_only_setting_disables_whitelist_witness :
  let settings :=
    {| approval_amount_threshold := 500.0%float; approval_min_confidence := 0.85%float;
       approval_require_invoice_keyword := true; approval_reject_receipt_keyword := true;
       approval_allowed_bill_to_names := " , ," |} in
  Forall (fun c => c = ","%char \/ py_isspace c = true)
    (list_ascii_of_string (approval_allowed_bill_to_names settings)) /\
  allowed_bill_to_names (create_approval_rules settings None None None None None) = [].
Proof.
  cbv zeta.
  assert (Hsep : Forall (fun c => c = ","%char \/ py_isspace c = true) (list_ascii_of_string " , ,")).
  { repeat constructor; first [left; reflexivity | right; reflexivity]. }
  split; [exact Hsep|].
  exact (proj1 (separator_only_setting_disables_whitelist (fun _ => "") (fun _ => "")
                  {| approval_amount_threshold := 500.0%float;
                     approval_min_confidence := 0.85%float;
                     approval_require_invoice_keyword := true;
                     approval_reject_receipt_keyword := true;
                     approval_allowed_bill_to_names := " , ," |}
                  None None None None Hsep)).
Defined.

Lemma clean_total_str_plain_unchanged_witness :
  clean_total_str "1234.56" = "1234.56".
Proof.
  exact (clean_total_str_plain_unchanged "1234.56" eq_refl eq_refl eq_refl eq_refl).
Defined.

End FactoryProps.

(** * More properties of [evaluate] *)

Module EvaluateProps.

Lemma leb_nan_l (x : float) : PrimFloat.leb PrimFloat.nan x = false.
Proof. rewrite leb_spec; reflexivity. Qed.

Lemma leb_nan_r (x : float) : PrimFloat.leb x PrimFloat.nan = false.
Proof.
  rewrite leb_spec.
  assert (H : Prim2SF PrimFloat.nan = S754_nan) by reflexivity.
  rewrite H; destruct (Prim2SF x); reflexivity.
Qed.

Lemma lower_char_idem (c : ascii) : lower_char (lower_char c) = lower_char c.
Proof. destruct c as [[] [] [] [] [] [] [] []]; reflexivity. Qed.

Lemma lower_idem (s : string) : lower (lower s) = lower s.
Proof. induction s as [|c s IH]; cbn; [reflexivity|now rewrite lower_char_idem, IH]. Qed.

Lemma classify_lower (s : string) :
  classify_document_type (Some (lower s)) = classify_document_type (Some s).
Proof.
  unfold classify_document_type; rewrite lower_idem.
  destruct s; reflexivity.
Qed.

Section Formats.

Variable fmt_2f : float -> string.
Variable fmt_pct1 : float -> string.

(** A NaN amount fails the amount check and a NaN confidence fails the
    confidence check (every comparison with NaN is false), so neither is
    ever auto-approved, whatever the configuration and the text. *)
Theorem nan_amount_or_confidence_not_approved (config : ApprovalRulesConfig)
    (amount confidence : float) (content vendor bill_to : option string) :
  let d1 := evaluate fmt_2f fmt_pct1 config PrimFloat.nan confidence content vendor bill_to in
  let d2 := evaluate fmt_2f fmt_pct1 config amount PrimFloat.nan content vendor bill_to in
  dict_get "amount_within_limit" (checks d1) = Some false /\ approved d1 = false /\
  dict_get "confidence_sufficient" (checks d2) = Some false /\ approved d2 = false.
Proof.
  cbv zeta; unfold evaluate; rewrite leb_nan_l, leb_nan_r.
  destruct (allowed_bill_to_names config);
    [|destruct (truthy bill_to); [destruct (existsb _ _)|]];
    cbn -[append classify_document_type contains lower];
    repeat split; rewrite ?andb_false_r; reflexivity.
Qed.

(** The document text is read only through its lowered form: a text and
    its lower-cased copy get the same document type, and [evaluate] makes
    the same decision (approval, reason, checks and metadata) for both. *)
Theorem content_case_insensitive (config : ApprovalRulesConfig)
    (amount confidence : float) (s : string) (vendor bill_to : option string) :
  classify_document_type (Some (lower s)) = classify_document_type (Some s) /\
  evaluate fmt_2f fmt_pct1 config amount confidence (Some (lower s)) vendor bill_to
  = evaluate fmt_2f fmt_pct1 config amount confidence (Some s) vendor bill_to.
Proof.
  split; [apply classify_lower|].
  unfold evaluate; rewrite classify_lower; reflexivity.
Qed.

End Formats.

End EvaluateProps.
